(* ===== verification/_CoqProject ===== *)
-Q . S2P
Prelude.v
Schema.v
Setup.v
PyText.v
Accounts.v
Tenancy.v
Events.v
AttendanceStore.v
Submissions.v
Scenarios.v
