(* ===== verification/Prelude.v ===== *)
(** * EAS: campus access control and attendance verification, in Rocq

    This library models the access-control and attendance core of the EAS
    Django backend (src/backend) and proves what makes it correct.

    ** The program
    EAS is a multi-campus event attendance system.  Its core is split over
    Django models and one middleware:
    - [apps/campus/models.py]: [Campus] and its one-to-one
      [CampusConfiguration] (feature flags, QR expiry, GPS radius);
    - [apps/accounts/models.py]: [User] with a [role] and a home [campus];
      [User.get_accessible_campus_ids] and [can_access_campus] compute the
      campuses an actor may operate on (super admins: every active campus,
      read fresh from the campus table; campus admins: their explicit list,
      or the home campus when the list is empty; everyone else: home only);
    - [apps/campus/managers.py]: [CampusAwareQuerySet], the filters every
      list query goes through ([for_campus], [for_user_campus],
      [accessible_to_user]);
    - [apps/shared/middleware.py]: [CampusContextMiddleware], which attaches
      the effective campus to a request and honours the [X-Campus-ID]
      override header only for admins and only for an accessible campus;
    - [apps/events/models.py]: [Event] with its attendance window, computed
      once in [Event.save], its QR payload ([generate_qr_code]), and the
      eligibility gate [can_user_attend] (campus, capacity, duplicate,
      window, in that order);
    - [apps/attendance/models.py]: [Attendance] (unique per event and user),
      its [save] (campus default, cross-campus flag, arrival time), [is_late],
      and the [AttendanceLog] / [AttendanceValidation] tables;
    - [apps/campus/api/views.py]: the campus viewset's queryset;
    - [apps/campus/management/commands/setup_initial_data.py]: the seeding
      command (get-or-create of the four SNSU campuses and demo users).

    ** The files
    - [Prelude] (this file): the result type of fallible operations and its
      notation (scope [eas_scope]), Python truthiness and membership helpers
      on [Z], the counting helper used by every [.count()] query, list lemmas
      on keys and [NoDup], the tactic [eas_bool] and the hint database [eas].
    - [Schema]: the data of the models, as records and enumerations with the
      source's field names and choices, with decidable equality instances.
    - [Setup] (Module [Setup]): [Command.handle] of the seeding command over
      a database of campus, configuration and user tables, with
      [get_or_create] and the unique-column errors as [result] values.
      Theorem: a second run without [--clear] changes nothing.
    - [PyText] (Module [PyText]): Python's [int()] on a header string and
      [str()] on an integer. Theorem: [int(str(z)) = z].
    - [Accounts] (Module [Accounts]): [get_accessible_campus_ids],
      [can_access_campus], [get_full_name]; refinement of the accessible set
      against the tenant contract of spec 4.1 ([spec_accessible]).
    - [Tenancy] (Module [Tenancy]): the class [CampusScoped] for tables with
      a campus column (events, attendance, users) and the query-set filters
      stated against it; the middleware's [process_request] and
      [process_response]; the campus viewset's [get_queryset].  Theorems:
      non-admins always get the home campus, the effective campus refines
      the contract, the [X-Campus-ID] header round trip, scoping of
      [accessible_to_user] and its unchecked super-admin branch.
    - [Events] (Module [Events]): [Event.save] (the window, the upsert and
      the separate QR update), [is_ongoing], [can_mark_attendance], the
      counters and [can_user_attend]; the reference [spec_check] of spec 4.5
      gates 1-4.  Theorems: the window value, the QR payload and idempotent
      re-save, inclusive window bounds, refinement of [spec_check] by
      [can_user_attend], the campus gate, capacity 0.
    - [AttendanceStore] (Module [AttendanceStore]): the attendance table with
      its id sequence, Django's UPDATE-or-INSERT [save] under the primary
      key and the [(event, user)] unique constraint ([IntegrityError] as an
      [Err]), [Attendance.save]'s field defaults, [is_late].  Theorems: the
      table invariant, duplicate rejection, the saved fields, and [is_late]
      comparing a UTC time with a local one.
    - [Submissions] (Module [Submissions]): many submissions, each a
      [can_user_attend] check then an [Attendance.save], interleaved as an
      inductive [step] relation on the shared table (spec 5; the repository
      has no view that composes them).  Theorems by rule induction: the
      invariant of every reachable state (by [rtc_ind_r]), no two records
      for one pair, and, for a double submit by an eligible user, exactly
      one record once every submission has finished.
    - [Scenarios] (Module [Scenarios]): an SNSU campus in Manila time, the
      seeded student and two more, an event and concrete runs; every
      property with a hypothesis is applied there ([*_witness]).

    Not modelled: HTTP routing, serializers and the health endpoints (I/O
    and field lists), QR image rendering and file storage (the stored name
    and payload are modelled), passwords and console output of the seeding
    command, [core/models.py] (a second, unused [Campus] model), settings.
    No fuel is needed: every operation is structurally recursive, and the
    interleaving of submissions is a relation, whose finished states are
    the ones the double-submit theorem speaks of.  Python's float division
    in [capacity_percentage] is taken as exact; [marked_at] is an aware UTC
    datetime (USE_TZ, the Django default of the settings this code runs
    with); an [X-Campus-ID] above the 64-bit range finds no campus and the
    request keeps its home campus, which is what Django 5.0 and later do
    for an out-of-range integer lookup (older versions on SQLite raise an
    uncaught [OverflowError]; the Django version is not pinned in src/).

    Time is a [Z] count of seconds (UTC instants for aware datetimes, seconds
    of the day for [TimeField]s, days for [DateField]s); [make_aware] shifts
    by a fixed offset of the configured zone (Asia/Manila has no DST). *)

From stdpp Require Export base list strings.
From Stdlib Require Export ZArith Lia.

Declare Scope eas_scope.
Delimit Scope eas_scope with eas.
Open Scope Z_scope.

(** ** Fallible computations *)

(** The outcome of an operation that can fail with an error of type [E]
    (a Python exception or a rejected request). *)
Inductive result (E A : Type) : Type :=
| Ok (a : A)
| Err (e : E).
Arguments Ok {E A} a.
Arguments Err {E A} e.

Definition result_bind {E A B} (r : result E A) (k : A -> result E B) : result E B :=
  match r with
  | Ok a => k a
  | Err e => Err e
  end.

Notation "'let?' x ':=' c 'in' k" := (result_bind c (fun x => k))
  (at level 10, x name, c at level 100, k at level 200) : eas_scope.

Definition is_ok {E A} (r : result E A) : bool :=
  match r with Ok _ => true | Err _ => false end.

(** ** Python truthiness and membership *)

(** [if x:] on an optional integer: [None] and [0] are false. *)
Definition py_truthy_opt (o : option Z) : bool :=
  match o with
  | Some z => negb (z =? 0)
  | None => false
  end.

(** [x in l] on a list of integers. *)
Definition py_in (x : Z) (l : list Z) : bool := existsb (Z.eqb x) l.

(** [if l:] on a list: the empty list is false. *)
Definition py_nonempty {A} (l : list A) : bool :=
  match l with [] => false | _ => true end.

(** [queryset.filter(p).count()]. *)
Definition count_where {A} (p : A -> bool) (l : list A) : nat :=
  length (List.filter p l).

(** ** Shared lemmas *)

Lemma py_in_spec x l : py_in x l = true <-> In x l.
Proof.
  unfold py_in. rewrite existsb_exists. split.
  - intros (y & Hy & Heq). apply Z.eqb_eq in Heq. subst. exact Hy.
  - intros H. exists x. split; [exact H | apply Z.eqb_refl].
Qed.

Lemma py_in_false x l : py_in x l = false <-> ~ In x l.
Proof.
  rewrite <- py_in_spec. destruct (py_in x l); split; congruence.
Qed.

Lemma py_in_cons x y l : py_in x (y :: l) = (x =? y) || py_in x l.
Proof. reflexivity. Qed.

Lemma count_where_app {A} (p : A -> bool) l1 l2 :
  count_where p (l1 ++ l2) = (count_where p l1 + count_where p l2)%nat.
Proof.
  unfold count_where. induction l1 as [|a l1 IH]; simpl; [reflexivity|].
  destruct (p a); simpl; lia.
Qed.

Lemma count_where_le {A} (p : A -> bool) l : (count_where p l <= length l)%nat.
Proof.
  unfold count_where. induction l as [|a l IH]; simpl; [lia|].
  destruct (p a); simpl; lia.
Qed.

Lemma count_where_ext {A} (p q : A -> bool) l :
  (forall a, In a l -> p a = q a) -> count_where p l = count_where q l.
Proof.
  intros H. unfold count_where. f_equal. apply filter_ext_in. exact H.
Qed.

Lemma filter_In_iff {A} (p : A -> bool) l a :
  In a (List.filter p l) <-> In a l /\ p a = true.
Proof. apply filter_In. Qed.

Lemma py_truthy_opt_true o :
  py_truthy_opt o = true <-> exists z, o = Some z /\ z <> 0.
Proof.
  destruct o as [z|]; simpl; split.
  - intros H. exists z. split; [reflexivity|]. apply negb_true_iff, Z.eqb_neq in H. exact H.
  - intros (z' & [= <-] & Hz). apply negb_true_iff, Z.eqb_neq. exact Hz.
  - discriminate.
  - intros (? & ? & _). discriminate.
Qed.

(** Rows with a unique key are determined by the key. *)
Lemma NoDup_map_key {A K} (key : A -> K) (l : list A) x y :
  List.NoDup (map key l) -> In x l -> In y l -> key x = key y -> x = y.
Proof.
  induction l as [|a l IH]; simpl; [tauto|].
  intros Hnd Hx Hy Hk. apply List.NoDup_cons_iff in Hnd as [Hna Hnd].
  destruct Hx as [<-|Hx], Hy as [<-|Hy]; auto.
  - exfalso. apply Hna. rewrite Hk. apply in_map. exact Hy.
  - exfalso. apply Hna. rewrite <- Hk. apply in_map. exact Hx.
Qed.

Lemma find_some_in {A} (p : A -> bool) l x :
  List.find p l = Some x -> In x l /\ p x = true.
Proof. apply find_some. Qed.

Lemma NoDup_map_snoc {A K} (f : A -> K) (l : list A) x :
  List.NoDup (map f l) -> ~ In (f x) (map f l) -> List.NoDup (map f (l ++ [x])).
Proof.
  induction l as [|a l IH]; cbn; intros Hnd Hx.
  - constructor; [tauto|constructor].
  - apply List.NoDup_cons_iff in Hnd as [Ha Hnd]. constructor.
    + rewrite map_app, in_app_iff. cbn. intros [H|[H|[]]]; [tauto|auto].
    + apply IH; tauto.
Qed.

(** Replacing the row of a unique key [g] by [a] keeps the column [f]
    unique when no other row has [a]'s value of [f]. *)
Lemma NoDup_map_replace {A K P} `{EqDecision P} (f : A -> K) (g : A -> P) (p : P) (a : A) l :
  List.NoDup (map f l) -> List.NoDup (map g l) ->
  (forall r, In r l -> g r <> p -> f r <> f a) ->
  List.NoDup (map f (map (fun r => if bool_decide (g r = p) then a else r) l)).
Proof.
  induction l as [|r l IH]; cbn; intros Hf Hg Hother; [constructor|].
  apply List.NoDup_cons_iff in Hf as [Hfr Hf]. apply List.NoDup_cons_iff in Hg as [Hgr Hg].
  constructor; [|apply IH; auto].
  rewrite map_map, in_map_iff. intros (r' & Heq & Hin).
  repeat case_bool_decide;
  first [ apply Hgr; replace (g r) with (g r') by congruence; apply in_map; exact Hin
        | apply (Hother r'); [right; exact Hin | assumption | congruence]
        | apply (Hother r); [left; reflexivity | assumption | congruence]
        | apply Hfr; rewrite <- Heq; apply in_map; exact Hin ].
Qed.

(** ** Automation *)

Create HintDb eas discriminated.
Create Rewrite HintDb eas_rw.
#[export] Hint Resolve count_where_le : eas.
#[export] Hint Rewrite py_in_cons @count_where_app : eas_rw.

(** Turn boolean tests on [Z], [bool] and membership into propositions. *)
Ltac eas_bool :=
  repeat match goal with
  | H : (_ && _)%bool = true |- _ => apply andb_true_iff in H as [? ?]
  | H : (_ || _)%bool = false |- _ => apply orb_false_iff in H as [? ?]
  | H : negb _ = true |- _ => apply negb_true_iff in H
  | H : negb _ = false |- _ => apply negb_false_iff in H
  | H : (_ =? _) = true |- _ => apply Z.eqb_eq in H
  | H : (_ =? _) = false |- _ => apply Z.eqb_neq in H
  | H : (_ <=? _) = true |- _ => apply Z.leb_le in H
  | H : (_ <=? _) = false |- _ => apply Z.leb_gt in H
  | H : (_ <? _) = true |- _ => apply Z.ltb_lt in H
  | H : (_ <? _) = false |- _ => apply Z.ltb_ge in H
  | H : py_in _ _ = true |- _ => apply py_in_spec in H
  | H : py_in _ _ = false |- _ => apply py_in_false in H
  end.
