(* ===== verification/Schema.v ===== *)
(** * Schema: the data of the EAS models

    One record per Django model of the core, with the source's field names
    (prefixed by the model where two models share a field name) and one
    inductive type per [choices] list.  Primary keys of [BigAutoField] tables
    are [Z]; the [UUIDField] key of [Event] is its canonical text.  Datetimes
    are [Z] seconds since the epoch, [TimeField]s seconds of the day,
    [DateField]s day numbers, and [DecimalField] coordinates integers in
    units of 1e-7 degree (the fields have seven decimal places).  Image
    fields are the stored file name, if any.  Presentation-only fields
    (branding, phone, e-mail, locale) are omitted. *)

From S2P Require Import Prelude.
From Stdlib Require Import QArith.
Open Scope Z_scope.

(** ** Campus ([apps/campus/models.py]) *)

Record Campus := mkCampus {
  campus_pk : Z;
  campus_name : string;
  campus_code : string;
  campus_domain : string;
  campus_latitude : option Z;
  campus_longitude : option Z;
  campus_timezone : string;
  campus_is_active : bool;
}.

Record CampusConfiguration := mkCampusConfiguration {
  config_campus : Z;
  multi_campus_events_enabled : bool;
  cross_campus_attendance_enabled : bool;
  qr_code_expiry_hours : Z;
  attendance_window_minutes : Z;
  email_notifications_enabled : bool;
  sms_notifications_enabled : bool;
  gps_validation_enabled : bool;
  gps_radius_meters : Z;
}.

(** The field defaults of [CampusConfiguration]. *)
Definition default_configuration (campus : Z) : CampusConfiguration := {|
  config_campus := campus;
  multi_campus_events_enabled := false;
  cross_campus_attendance_enabled := false;
  qr_code_expiry_hours := 24;
  attendance_window_minutes := 30;
  email_notifications_enabled := true;
  sms_notifications_enabled := false;
  gps_validation_enabled := true;
  gps_radius_meters := 100;
|}.

(** ** User ([apps/accounts/models.py]) *)

Inductive Role := student | organizer | campus_admin | super_admin.

#[export] Instance Role_eq_dec : EqDecision Role.
Proof. solve_decision. Defined.

Record User := mkUser {
  user_pk : Z;
  username : string;
  first_name : string;
  middle_name : string;
  last_name : string;
  user_campus_id : Z;
  student_id : string;
  department : string;
  role : Role;
  user_is_active : bool;
  is_staff : bool;
  is_superuser : bool;
  accessible_campus_ids : list Z;
}.

(** ** Event ([apps/events/models.py]) *)

Inductive EventStatus := draft | published | ongoing | completed | cancelled.

Inductive EventType :=
| academic | seminar | workshop | conference | social | sports | cultural | other.

#[export] Instance EventStatus_eq_dec : EqDecision EventStatus.
Proof. solve_decision. Defined.
#[export] Instance EventType_eq_dec : EqDecision EventType.
Proof. solve_decision. Defined.

(** [location_coordinates]: the JSON object [{lat, lng}]. *)
Record Coordinates := mkCoordinates { lat : Z; lng : Z }.

Record Event := mkEvent {
  event_pk : string;
  event_campus_id : Z;
  organizer_id : Z;
  title : string;
  event_type : EventType;
  event_date : Z;
  start_time : Z;
  end_time : Z;
  venue : string;
  location_coordinates : option Coordinates;
  is_multi_campus : bool;
  allowed_campuses : list Z;
  max_participants : option Z;
  requires_registration : bool;
  qr_code : option string;
  qr_code_data : string;
  attendance_window_start : option Z;
  attendance_window_end : option Z;
  event_status : EventStatus;
  event_is_active : bool;
  requires_selfie : bool;
  requires_gps : bool;
  requires_signature : bool;
  event_created_at : Z;
}.

(** ** Attendance ([apps/attendance/models.py]) *)

Inductive AttendanceStatus := present | absent | late | excused.

Inductive VerificationMethod := qr_code_method | manual | facial_recognition | admin_override.

#[export] Instance AttendanceStatus_eq_dec : EqDecision AttendanceStatus.
Proof. solve_decision. Defined.
#[export] Instance VerificationMethod_eq_dec : EqDecision VerificationMethod.
Proof. solve_decision. Defined.

(** [gps_coordinates]: the JSON object [{lat, lng, accuracy}]. *)
Record GpsReading := mkGpsReading { gps_lat : Z; gps_lng : Z; gps_accuracy : Z }.

Record Attendance := mkAttendance {
  att_pk : option Z;
  att_campus_id : option Z;
  att_event : string;
  att_user : Z;
  att_status : AttendanceStatus;
  verification_method : VerificationMethod;
  cross_campus_attendance : bool;
  selfie_image : option string;
  signature_image : option string;
  gps_coordinates : option GpsReading;
  marked_at : Z;
  arrival_time : option Z;
  departure_time : option Z;
  att_is_verified : bool;
  verification_score : option Q;
  verification_notes : string;
  ip_address : option string;
  user_agent : string;
  marked_by : option Z;
}.

Inductive LogAction := marked | updated | verified | rejected | deleted.

#[export] Instance LogAction_eq_dec : EqDecision LogAction.
Proof. solve_decision. Defined.

Record AttendanceLog := mkAttendanceLog {
  log_attendance : Z;
  log_campus : Z;
  action : LogAction;
  performed_by : option Z;
  log_details : list (string * string);
  log_ip_address : option string;
  log_timestamp : Z;
}.

Inductive ValidationType := gps_distance | time_window | image_verification | duplicate_check.

Inductive ValidationStatus := passed | failed | warning.

#[export] Instance ValidationType_eq_dec : EqDecision ValidationType.
Proof. solve_decision. Defined.
#[export] Instance ValidationStatus_eq_dec : EqDecision ValidationStatus.
Proof. solve_decision. Defined.

Record AttendanceValidation := mkAttendanceValidation {
  validation_attendance : Z;
  validation_type : ValidationType;
  validation_status : ValidationStatus;
  confidence_score : Q;
  validation_details : list (string * string);
}.
