(* ===== verification/Setup.v ===== *)
(** * Setup: the [setup_initial_data] management command

    [Command.handle] (src/backend/apps/campus/management/commands/
    setup_initial_data.py) seeds the four SNSU campuses with their
    configuration and three demo users, each by [get_or_create], after an
    optional [--clear].  The database is the record [SeedDb] of the three
    tables the command touches; inserts check the unique columns the models
    declare ([Campus.code], [Campus.domain], [User.username],
    [User.student_id]) and fail with an integrity error, as the database
    does.  Passwords ([set_password]) and the console output are not
    modelled. *)

From S2P Require Import Prelude Schema.
Open Scope Z_scope.
Open Scope eas_scope.

Module Setup.

Inductive SetupError :=
| IntegrityError (column : string)
| DoesNotExist (model : string).

Record SeedDb := mkSeedDb {
  seed_campuses : list Campus;
  seed_configs : list CampusConfiguration;
  seed_users : list User;
  seed_next_user_pk : Z;
}.

Definition seed_campus (pk : Z) (name code domain : string) (lat lng : Z) : Campus := {|
  campus_pk := pk; campus_name := name; campus_code := code; campus_domain := domain;
  campus_latitude := Some lat; campus_longitude := Some lng;
  campus_timezone := "Asia/Manila"; campus_is_active := true |}.

(** [campuses_data], coordinates in units of 1e-7 degree. *)
Definition campuses_data : list Campus := [
  seed_campus 1 "Surigao del Norte State University" "SNSU" "snsu.edu.ph" 97893000 1254954000;
  seed_campus 2 "SNSU Malimono Campus" "MALIMONO" "malimono.snsu.edu.ph" 96167000 1254833000;
  seed_campus 3 "SNSU Del Carmen Campus" "DELCARMEN" "delcarmen.snsu.edu.ph" 96000000 1255000000;
  seed_campus 4 "SNSU Mainit Campus" "MAINIT" "mainit.snsu.edu.ph" 95500000 1255167000]%string.

(** The configuration created with a new campus. *)
Definition seed_configuration (campus : Z) : CampusConfiguration := {|
  config_campus := campus;
  multi_campus_events_enabled := true;
  cross_campus_attendance_enabled := true;
  qr_code_expiry_hours := 24;
  attendance_window_minutes := 30;
  email_notifications_enabled := true;
  sms_notifications_enabled := false;
  gps_validation_enabled := true;
  gps_radius_meters := 100;
|}.

Definition has_campus_pk (db : SeedDb) (pk : Z) : bool :=
  existsb (fun c => campus_pk c =? pk) (seed_campuses db).

(** [Campus.objects.get_or_create(id=..., defaults=campus_data)] followed,
    when created, by [CampusConfiguration.objects.create]. *)
Definition get_or_create_campus (db : SeedDb) (c : Campus) : result SetupError (SeedDb * bool) :=
  if has_campus_pk db (campus_pk c) then Ok (db, false)
  else if existsb (fun k => bool_decide (campus_code k = campus_code c)) (seed_campuses db)
  then Err (IntegrityError "campus.code")
  else if existsb (fun k => bool_decide (campus_domain k = campus_domain c)) (seed_campuses db)
  then Err (IntegrityError "campus.domain")
  else Ok ({| seed_campuses := seed_campuses db ++ [c];
              seed_configs := seed_configs db ++ [seed_configuration (campus_pk c)];
              seed_users := seed_users db;
              seed_next_user_pk := seed_next_user_pk db |}, true).

Fixpoint create_campuses (db : SeedDb) (cs : list Campus) : result SetupError SeedDb :=
  match cs with
  | [] => Ok db
  | c :: rest =>
      match get_or_create_campus db c with
      | Ok (db', _) => create_campuses db' rest
      | Err e => Err e
      end
  end.

(** [Campus.objects.get(code=...)]; [code] is unique. *)
Definition get_campus_by_code (db : SeedDb) (code : string) : result SetupError Campus :=
  match List.find (fun k => bool_decide (campus_code k = code)) (seed_campuses db) with
  | Some k => Ok k
  | None => Err (DoesNotExist "Campus")
  end.

(** The [defaults] of a demo user; [middle_name] and the flags default to
    blank and [False]. *)
Record UserDefaults := mkUserDefaults {
  d_username : string; d_first_name : string; d_middle_name : string; d_last_name : string;
  d_student_id : string; d_role : Role; d_department : string;
  d_is_staff : bool; d_is_superuser : bool }.

Definition new_user (pk campus : Z) (d : UserDefaults) : User := {|
  user_pk := pk; username := d_username d; first_name := d_first_name d;
  middle_name := d_middle_name d; last_name := d_last_name d; user_campus_id := campus;
  student_id := d_student_id d; department := d_department d; role := d_role d;
  user_is_active := true; is_staff := d_is_staff d; is_superuser := d_is_superuser d;
  accessible_campus_ids := [] |}.

(** [User.objects.get_or_create(username=..., defaults=...)]. *)
Definition get_or_create_user (db : SeedDb) (campus : Z) (d : UserDefaults)
    : result SetupError (SeedDb * bool) :=
  if existsb (fun u => bool_decide (username u = d_username d)) (seed_users db) then Ok (db, false)
  else if existsb (fun u => bool_decide (student_id u = d_student_id d)) (seed_users db)
  then Err (IntegrityError "users.student_id")
  else Ok ({| seed_campuses := seed_campuses db; seed_configs := seed_configs db;
              seed_users := seed_users db ++ [new_user (seed_next_user_pk db) campus d];
              seed_next_user_pk := seed_next_user_pk db + 1 |}, true).

Definition demo_admin : UserDefaults :=
  mkUserDefaults "admin" "Nilo" "Jr." "Olang" "ADMIN001" super_admin "Administration" true true.
Definition demo_organizer : UserDefaults :=
  mkUserDefaults "organizer" "Maria" "" "Santos" "ORG001" organizer "Student Affairs" true false.
Definition demo_student : UserDefaults :=
  mkUserDefaults "student" "Juan" "" "Cruz" "2024-000001" student
    "College of Engineering and Information Technology" false false.

Definition demo_users : list UserDefaults := [demo_admin; demo_organizer; demo_student].

Fixpoint create_users (db : SeedDb) (campus : Z) (ds : list UserDefaults) : result SetupError SeedDb :=
  match ds with
  | [] => Ok db
  | d :: rest =>
      match get_or_create_user db campus d with
      | Ok (db', _) => create_users db' campus rest
      | Err e => Err e
      end
  end.

(** [Command.handle]: [--clear] deletes every campus (configurations
    cascade) and every user, then the campuses and the demo users of the
    main campus are got or created. *)
Definition handle (clear : bool) (db : SeedDb) : result SetupError SeedDb :=
  let db0 := if clear then {| seed_campuses := []; seed_configs := []; seed_users := [];
                              seed_next_user_pk := seed_next_user_pk db |}
             else db in
  let? db1 := create_campuses db0 campuses_data in
  let? main_campus := get_campus_by_code db1 "SNSU"%string in
  create_users db1 (campus_pk main_campus) demo_users.

Definition empty_db : SeedDb := mkSeedDb [] [] [] 1.

Definition has_username (db : SeedDb) (n : string) : bool :=
  existsb (fun u => bool_decide (username u = n)) (seed_users db).

(** ** Lemmas *)

Lemma existsb_app_l {A} (p : A -> bool) l1 l2 :
  existsb p l1 = true -> existsb p (l1 ++ l2) = true.
Proof. intros H. rewrite existsb_app, H. reflexivity. Qed.

Lemma get_or_create_campus_spec db c db' b :
  get_or_create_campus db c = Ok (db', b) ->
  has_campus_pk db' (campus_pk c) = true /\
  (forall p, has_campus_pk db p = true -> has_campus_pk db' p = true) /\
  seed_users db' = seed_users db /\ seed_next_user_pk db' = seed_next_user_pk db.
Proof.
  unfold get_or_create_campus.
  destruct (has_campus_pk db (campus_pk c)) eqn:Hp; [intros [= <- _]; auto|].
  destruct (existsb (fun k => bool_decide (campus_code k = _)) _); [discriminate|].
  destruct (existsb (fun k => bool_decide (campus_domain k = _)) _); [discriminate|].
  intros [= <- _].
  unfold has_campus_pk in *; cbn. repeat split; intros; try (apply existsb_app_l; solve [auto]).
  rewrite existsb_app. cbn. rewrite Z.eqb_refl, orb_true_r. reflexivity.
Qed.

Lemma create_campuses_spec db cs db' :
  create_campuses db cs = Ok db' ->
  (forall c, In c cs -> has_campus_pk db' (campus_pk c) = true) /\
  (forall p, has_campus_pk db p = true -> has_campus_pk db' p = true) /\
  seed_users db' = seed_users db /\ seed_next_user_pk db' = seed_next_user_pk db.
Proof.
  revert db. induction cs as [|c cs IH]; intros db; cbn.
  - intros [= <-]. intuition.
  - destruct (get_or_create_campus db c) as [[d b]|e] eqn:E; [|discriminate].
    intros H. apply get_or_create_campus_spec in E as (E1 & E2 & E3 & E4).
    destruct (IH d H) as (I1 & I2 & I3 & I4).
    repeat split; [|auto|congruence|congruence].
    intros k [<-|Hk]; auto.
Qed.

Lemma create_campuses_present db cs :
  (forall c, In c cs -> has_campus_pk db (campus_pk c) = true) -> create_campuses db cs = Ok db.
Proof.
  induction cs as [|c cs IH]; intros H; cbn; [reflexivity|].
  unfold get_or_create_campus. rewrite H by (left; reflexivity). apply IH. intros k Hk. apply H. right. exact Hk.
Qed.

Lemma get_or_create_user_spec db campus d db' b :
  get_or_create_user db campus d = Ok (db', b) ->
  has_username db' (d_username d) = true /\
  (forall n, has_username db n = true -> has_username db' n = true) /\
  seed_campuses db' = seed_campuses db.
Proof.
  unfold get_or_create_user.
  destruct (existsb _ (seed_users db)) eqn:Hu; [intros [= <- _]; auto|].
  destruct (existsb (fun u => bool_decide (student_id u = _)) _); [discriminate|].
  intros [= <- _].
  unfold has_username in *; cbn. repeat split; intros; try (apply existsb_app_l; solve [auto]).
  rewrite existsb_app. cbn. rewrite bool_decide_eq_true_2 by reflexivity. apply orb_true_r.
Qed.

Lemma create_users_mono db campus ds db' n :
  create_users db campus ds = Ok db' -> has_username db n = true -> has_username db' n = true.
Proof.
  revert db. induction ds as [|d ds IH]; intros db; cbn; [intros [= <-]; auto|].
  destruct (get_or_create_user db campus d) as [[x b]|e] eqn:E; [|discriminate].
  intros H Hn. apply get_or_create_user_spec in E as (_ & E2 & _). eauto.
Qed.

Lemma create_users_spec db campus ds db' :
  create_users db campus ds = Ok db' ->
  (forall d, In d ds -> has_username db' (d_username d) = true) /\
  seed_campuses db' = seed_campuses db.
Proof.
  revert db. induction ds as [|d ds IH]; intros db; cbn.
  - intros [= <-]. intuition.
  - destruct (get_or_create_user db campus d) as [[x b]|e] eqn:E; [|discriminate].
    intros H. pose proof (create_users_mono _ _ _ _ (d_username d) H) as Hm.
    apply get_or_create_user_spec in E as (E1 & E2 & E3).
    destruct (IH x H) as (I1 & I2). split; [|congruence].
    intros k [<-|Hk]; auto.
Qed.

Lemma create_users_present db campus ds :
  (forall d, In d ds -> has_username db (d_username d) = true) -> create_users db campus ds = Ok db.
Proof.
  induction ds as [|d ds IH]; intros H; cbn; [reflexivity|].
  unfold get_or_create_user. fold (has_username db (d_username d)).
  rewrite H by (left; reflexivity). apply IH. intros k Hk. apply H. right. exact Hk.
Qed.

(** ** Properties *)

(** C8: running the seeding command a second time without [--clear] after a
    successful run changes nothing: every campus and demo user it would
    create already exists, and the main campus is found again. *)
Theorem handle_idempotent db db' :
  handle false db = Ok db' -> handle false db' = Ok db'.
Proof.
  unfold handle. cbv beta iota zeta.
  destruct (create_campuses db campuses_data) as [db1|e] eqn:E1; [|discriminate].
  cbn [result_bind].
  destruct (get_campus_by_code db1 "SNSU") as [main|e] eqn:E2; [|discriminate].
  cbn [result_bind]. intros E3.
  apply create_campuses_spec in E1 as (Hc & _).
  pose proof E3 as E3'. apply create_users_spec in E3' as (Hu & Hcs).
  rewrite create_campuses_present.
  - cbn [result_bind]. unfold get_campus_by_code in *. rewrite Hcs. rewrite E2. cbn [result_bind].
    apply create_users_present. exact Hu.
  - unfold has_campus_pk in *. rewrite Hcs. exact Hc.
Qed.

(** ** Witness: seeding an empty database, then seeding again *)

Lemma handle_idempotent_witness :
  handle false empty_db =
    Ok (match handle false empty_db with Ok d => d | Err _ => empty_db end) /\
  handle false (match handle false empty_db with Ok d => d | Err _ => empty_db end) =
    Ok (match handle false empty_db with Ok d => d | Err _ => empty_db end).
Proof.
  split.
  - vm_compute. reflexivity.
  - apply (handle_idempotent empty_db). vm_compute. reflexivity.
Defined.

End Setup.
