(* ===== verification/PyText.v ===== *)
(** * PyText: Python's [int()] and [str()] on integers

    The campus middleware reads the [X-Campus-ID] request header with
    [int(campus_override)] and writes the [X-Campus-ID] response header with
    [str(request.campus.id)].  This file models both builtins on the ASCII
    text the headers carry: [int()] strips surrounding whitespace, accepts
    one optional sign and decimal digits with single underscores between
    digits, and raises [ValueError] ([None] here) on anything else; [str()]
    prints the decimal digits with a leading [-] when negative.  The
    non-ASCII Unicode digits and spaces [int()] also accepts are not
    modelled.  [py_int_py_str] is the round trip. *)

From S2P Require Import Prelude.
From Stdlib Require Import Ascii String.
Open Scope Z_scope.

Module PyText.

Definition is_digit (a : ascii) : bool :=
  (48 <=? nat_of_ascii a)%nat && (nat_of_ascii a <=? 57)%nat.

Definition digit_val (a : ascii) : Z := Z.of_nat (nat_of_ascii a) - 48.

Definition digit_char (d : Z) : ascii := ascii_of_nat (48 + Z.to_nat d).

(** [str.isspace] on ASCII: space, tab, LF, VT, FF, CR. *)
Definition is_space (a : ascii) : bool :=
  match nat_of_ascii a with
  | 32 | 9 | 10 | 11 | 12 | 13 => true
  | _ => false
  end%nat.

Fixpoint drop_spaces (l : list ascii) : list ascii :=
  match l with
  | c :: r => if is_space c then drop_spaces r else l
  | [] => []
  end.

Definition strip (l : list ascii) : list ascii := rev (drop_spaces (rev (drop_spaces l))).

(** The digits after the first: a digit, or an underscore followed by a digit. *)
Fixpoint digits_loop (acc : Z) (l : list ascii) : option Z :=
  match l with
  | [] => Some acc
  | c :: r =>
      if is_digit c then digits_loop (acc * 10 + digit_val c) r
      else if bool_decide (c = "_"%char) then
        match r with
        | d :: r' => if is_digit d then digits_loop (acc * 10 + digit_val d) r' else None
        | [] => None
        end
      else None
  end.

Definition parse_digits (l : list ascii) : option Z :=
  match l with
  | c :: r => if is_digit c then digits_loop (digit_val c) r else None
  | [] => None
  end.

Definition parse_signed (l : list ascii) : option Z :=
  match l with
  | c :: r =>
      if bool_decide (c = "-"%char) then option_map Z.opp (parse_digits r)
      else if bool_decide (c = "+"%char) then parse_digits r
      else parse_digits l
  | [] => None
  end.

(** [int(s)]; [None] stands for the [ValueError] it raises. *)
Definition py_int (s : string) : option Z := parse_signed (strip (list_ascii_of_string s)).

(** The decimal digits of [n >= 0], most significant first; [fuel] bounds
    the number of divisions ([n + 1] is enough). *)
Fixpoint dec_digits (fuel : nat) (n : Z) : list Z :=
  match fuel with
  | O => []
  | S f => if n <? 10 then [n] else dec_digits f (n / 10) ++ [n mod 10]
  end.

Definition digits_of (n : Z) : list ascii := map digit_char (dec_digits (S (Z.to_nat n)) n).

(** [str(z)]. *)
Definition py_str (z : Z) : string :=
  string_of_list_ascii
    (if z <? 0 then "-"%char :: digits_of (- z) else digits_of z).

(** ** Lemmas *)

Lemma digit_char_spec d :
  0 <= d <= 9 ->
  is_digit (digit_char d) = true /\ digit_val (digit_char d) = d /\
  is_space (digit_char d) = false /\ digit_char d <> "_"%char /\
  digit_char d <> "-"%char /\ digit_char d <> "+"%char.
Proof.
  intros H.
  assert (d = 0 \/ d = 1 \/ d = 2 \/ d = 3 \/ d = 4 \/ d = 5 \/ d = 6 \/ d = 7
          \/ d = 8 \/ d = 9) as Hd by lia.
  repeat destruct Hd as [-> | Hd]; subst; vm_compute; repeat split; discriminate.
Qed.

Lemma dec_digits_range fuel n :
  0 <= n -> Forall (fun d => 0 <= d <= 9) (dec_digits fuel n).
Proof.
  revert n. induction fuel as [|f IH]; intros n Hn; simpl; [constructor|].
  destruct (n <? 10) eqn:E; eas_bool.
  - constructor; [lia | constructor].
  - apply Forall_app. split.
    + apply IH. apply Z.div_pos; lia.
    + constructor; [|constructor]. pose proof (Z.mod_pos_bound n 10). lia.
Qed.

Lemma dec_digits_value fuel n :
  0 <= n < Z.of_nat fuel ->
  fold_left (fun a d => a * 10 + d) (dec_digits fuel n) 0 = n.
Proof.
  revert n. induction fuel as [|f IH]; intros n Hn; simpl; [lia|].
  destruct (n <? 10) eqn:E; eas_bool; [reflexivity|].
  rewrite fold_left_app, IH; simpl.
  - pose proof (Z.div_mod n 10). lia.
  - split; [apply Z.div_pos; lia|]. apply Z.div_lt_upper_bound; lia.
Qed.

Lemma dec_digits_nonempty fuel n : dec_digits (S fuel) n <> [].
Proof.
  simpl. destruct (n <? 10); [discriminate|].
  intros H. apply app_eq_nil in H as [_ H]. discriminate.
Qed.

Lemma digits_loop_map acc ds :
  Forall (fun d => 0 <= d <= 9) ds ->
  digits_loop acc (map digit_char ds) = Some (fold_left (fun a d => a * 10 + d) ds acc).
Proof.
  revert acc. induction ds as [|d ds IH]; intros acc Hds; [reflexivity|].
  inversion Hds as [|? ? Hd Hrest]; subst.
  destruct (digit_char_spec d Hd) as (Hdig & Hval & _).
  cbn [map digits_loop]. rewrite Hdig, Hval. apply IH. exact Hrest.
Qed.

Lemma drop_spaces_id l :
  Forall (fun c => is_space c = false) l -> drop_spaces l = l.
Proof. intros H. destruct H as [|c l Hc _]; simpl; [reflexivity|]. rewrite Hc. reflexivity. Qed.

Lemma strip_id l : Forall (fun c => is_space c = false) l -> strip l = l.
Proof.
  intros H. unfold strip. rewrite (drop_spaces_id l H), drop_spaces_id.
  - apply rev_involutive.
  - apply Forall_rev. exact H.
Qed.

Lemma digits_of_spec n :
  0 <= n ->
  Forall (fun c => is_space c = false) (digits_of n) /\
  parse_digits (digits_of n) = Some n /\
  exists c r, digits_of n = c :: r /\ c <> "-"%char /\ c <> "+"%char.
Proof.
  intros Hn. unfold digits_of.
  pose proof (dec_digits_range (S (Z.to_nat n)) n Hn) as Hr.
  pose proof (dec_digits_nonempty (Z.to_nat n) n) as Hne.
  split; [|split].
  - apply Forall_map. eapply Forall_impl; [exact Hr|]. intros d Hd. apply digit_char_spec, Hd.
  - destruct (dec_digits (S (Z.to_nat n)) n) as [|d ds] eqn:E; [congruence|].
    inversion Hr as [|? ? Hd Hrest]; subst.
    destruct (digit_char_spec d Hd) as (Hdig & Hval & _).
    cbn [map parse_digits]. rewrite Hdig, Hval, digits_loop_map by exact Hrest.
    f_equal. rewrite <- (dec_digits_value (S (Z.to_nat n)) n) by lia.
    rewrite E. simpl. reflexivity.
  - destruct (dec_digits (S (Z.to_nat n)) n) as [|d ds] eqn:E; [congruence|].
    inversion Hr as [|? ? Hd Hrest]; subst.
    destruct (digit_char_spec d Hd) as (_ & _ & _ & _ & Hm & Hp).
    exists (digit_char d), (map digit_char ds). auto.
Qed.

(** [int(str(z)) == z]. *)
Lemma py_int_py_str z : py_int (py_str z) = Some z.
Proof.
  unfold py_int, py_str. rewrite list_ascii_of_string_of_list_ascii.
  destruct (z <? 0) eqn:E; eas_bool.
  - destruct (digits_of_spec (- z)) as (Hsp & Hparse & _); [lia|].
    rewrite strip_id by (constructor; [reflexivity | exact Hsp]).
    cbn [parse_signed]. rewrite bool_decide_eq_true_2 by reflexivity.
    rewrite Hparse. cbn. f_equal. lia.
  - destruct (digits_of_spec z) as (Hsp & Hparse & c & r & Hcr & Hm & Hp); [lia|].
    rewrite strip_id by exact Hsp. rewrite Hcr in *. cbn [parse_signed].
    rewrite !bool_decide_eq_false_2 by assumption. exact Hparse.
Qed.

End PyText.
