(* ===== verification/Accounts.v ===== *)
(** * Accounts: the campus-access methods of [User]

    [User.get_accessible_campus_ids] and [User.can_access_campus]
    (src/backend/apps/accounts/models.py), over the campus table they query.
    The campus table is a list of [Campus] rows; the super-admin branch reads
    it at every call ([Campus.objects.filter(is_active=True)]), so the result
    always reflects the current activation state.  The abstract contract of
    the tenant resolver (spec section 4.1) is [spec_accessible]; the theorems
    show that the method implements it. *)

From S2P Require Import Prelude Schema.
Open Scope Z_scope.

Module Accounts.

(** [Campus.objects.filter(is_active=True).values_list('id', flat=True)]. *)
Definition active_campus_ids (campuses : list Campus) : list Z :=
  map campus_pk (List.filter campus_is_active campuses).

Definition is_role (r : Role) (u : User) : bool := bool_decide (role u = r).

(** [User.get_accessible_campus_ids]. *)
Definition get_accessible_campus_ids (campuses : list Campus) (u : User) : list Z :=
  if is_role super_admin u then active_campus_ids campuses
  else if is_role campus_admin u && py_nonempty (accessible_campus_ids u)
  then accessible_campus_ids u
  else [user_campus_id u].

(** [User.can_access_campus]. *)
Definition can_access_campus (campuses : list Campus) (u : User) (campus_id : Z) : bool :=
  py_in campus_id (get_accessible_campus_ids campuses u).

(** [User.get_full_name]: first, middle (when not blank) and last name. *)
Definition get_full_name (u : User) : string :=
  let names := [first_name u] ++ (if bool_decide (middle_name u = "")%string then []
                                  else [middle_name u]) ++ [last_name u] in
  String.concat " " names.

(** ** The contract of the tenant resolver (spec 4.1) *)

(** Campus [c] is accessible to [u]: every active campus for a super
    admin; for a campus admin the explicit set, or the home campus when the
    set is empty; the home campus for every other role. *)
Definition spec_accessible (campuses : list Campus) (u : User) (c : Z) : Prop :=
  match role u with
  | super_admin => exists k, In k campuses /\ campus_is_active k = true /\ campus_pk k = c
  | campus_admin =>
      match accessible_campus_ids u with
      | [] => c = user_campus_id u
      | l => In c l
      end
  | _ => c = user_campus_id u
  end.

(** ** Lemmas *)

Lemma is_role_true r u : is_role r u = true <-> role u = r.
Proof. unfold is_role. apply bool_decide_eq_true. Qed.

Lemma in_active_campus_ids campuses c :
  In c (active_campus_ids campuses) <->
  exists k, In k campuses /\ campus_is_active k = true /\ campus_pk k = c.
Proof.
  unfold active_campus_ids. rewrite in_map_iff. split.
  - intros (k & <- & Hk). apply filter_In in Hk as [Hin Ha]. eauto.
  - intros (k & Hin & Ha & <-). exists k. split; [reflexivity|]. apply filter_In; auto.
Qed.

(** The role dispatch of [get_accessible_campus_ids], one equation per role. *)
Lemma get_accessible_campus_ids_super campuses u :
  role u = super_admin -> get_accessible_campus_ids campuses u = active_campus_ids campuses.
Proof. intros H. unfold get_accessible_campus_ids, is_role. rewrite H. reflexivity. Qed.

Lemma get_accessible_campus_ids_admin campuses u :
  role u = campus_admin ->
  get_accessible_campus_ids campuses u =
    match accessible_campus_ids u with [] => [user_campus_id u] | l => l end.
Proof.
  intros H. unfold get_accessible_campus_ids, is_role. rewrite H. simpl.
  destruct (accessible_campus_ids u); reflexivity.
Qed.

Lemma get_accessible_campus_ids_other campuses u :
  role u <> super_admin -> role u <> campus_admin ->
  get_accessible_campus_ids campuses u = [user_campus_id u].
Proof.
  intros H1 H2. unfold get_accessible_campus_ids, is_role.
  rewrite !bool_decide_eq_false_2 by assumption. reflexivity.
Qed.

#[export] Hint Resolve get_accessible_campus_ids_super get_accessible_campus_ids_other : eas.

(** ** Properties *)

(** C1: the campuses [get_accessible_campus_ids] returns are exactly the
    campuses the tenant contract grants: all currently active campuses for
    a super admin (the table is read at the call), the explicit set or the
    home campus for a campus admin, the home campus for everyone else. *)
Theorem get_accessible_campus_ids_refines campuses u c :
  In c (get_accessible_campus_ids campuses u) <-> spec_accessible campuses u c.
Proof.
  unfold spec_accessible. destruct (role u) eqn:Hr.
  - rewrite get_accessible_campus_ids_other by congruence. simpl. intuition congruence.
  - rewrite get_accessible_campus_ids_other by congruence. simpl. intuition congruence.
  - rewrite get_accessible_campus_ids_admin by assumption.
    destruct (accessible_campus_ids u); simpl; intuition congruence.
  - rewrite get_accessible_campus_ids_super by assumption. apply in_active_campus_ids.
Qed.

End Accounts.
