(* ===== verification/Tenancy.v ===== *)
(** * Tenancy: campus-scoped queries, the campus middleware, the campus viewset

    - [CampusAwareQuerySet] (src/backend/apps/campus/managers.py): the
      filters [for_campus], [for_user_campus] and [accessible_to_user] over
      any table whose rows carry a campus ([CampusScoped]).  A query set is
      the list of its rows.
    - [CampusContextMiddleware] (src/backend/apps/shared/middleware.py):
      [process_request] computes the request's effective campus and its
      accessible campuses, honouring the [X-Campus-ID] header only for
      admins and only for an accessible campus; [process_response] writes the
      effective campus back as response headers.
    - [CampusViewSet.get_queryset] (src/backend/apps/campus/api/views.py).

    The abstract contract of the effective campus (spec section 4.1) is
    [spec_effective_campus]; the middleware refines it on a well-formed
    campus table. *)

From S2P Require Import Prelude Schema Setup PyText Accounts.
Open Scope Z_scope.

Module Tenancy.
Import Accounts PyText Setup.

(** ** Rows owned by a campus *)

(** A model with a [campus] foreign key; [None] is a row whose campus is
    not set yet. *)
Class CampusScoped (A : Type) := campus_of : A -> option Z.

#[export] Instance Event_scoped : CampusScoped Event := fun e => Some (event_campus_id e).
#[export] Instance Attendance_scoped : CampusScoped Attendance := att_campus_id.
#[export] Instance User_scoped : CampusScoped User := fun u => Some (user_campus_id u).

Section QuerySet.
Context {A : Type} `{CampusScoped A}.

(** [CampusAwareQuerySet.for_campus]: [filter(campus_id=campus_id)]. *)
Definition for_campus (campus_id : Z) (qs : list A) : list A :=
  List.filter (fun r => bool_decide (campus_of r = Some campus_id)) qs.

(** [CampusAwareQuerySet.for_user_campus]. *)
Definition for_user_campus (u : User) (qs : list A) : list A :=
  if is_role super_admin u then qs else for_campus (user_campus_id u) qs.

(** [CampusAwareQuerySet.accessible_to_user]; [campus_id] is the optional
    argument, whose [if campus_id:] treats [None] and [0] alike. *)
Definition accessible_to_user (campuses : list Campus) (u : User) (campus_id : option Z)
    (qs : list A) : list A :=
  if is_role super_admin u then
    match campus_id with
    | Some c => if negb (c =? 0) then for_campus c qs else qs
    | None => qs
    end
  else
    let accessible_campuses := get_accessible_campus_ids campuses u in
    match campus_id with
    | Some c =>
        if negb (c =? 0) && py_in c accessible_campuses then for_campus c qs
        else for_campus (user_campus_id u) qs
    | None => for_campus (user_campus_id u) qs
    end.

End QuerySet.

(** ** The campus middleware *)

(** The attributes the middleware sets on the request. *)
Record RequestContext := mkRequestContext {
  request_campus : option Campus;
  request_accessible_campuses : list Campus;
}.

(** [Campus.objects.get(id=...)] on a table with unique ids; a missing row
    ([DoesNotExist]) is [None]. *)
Definition find_campus (campuses : list Campus) (id : Z) : option Campus :=
  List.find (fun c => campus_pk c =? id) campuses.

Definition is_admin_role (u : User) : bool := is_role campus_admin u || is_role super_admin u.

(** The override branch: [int(campus_override)] then
    [Campus.objects.get(id=..., id__in=accessible ids)]; either exception
    keeps [current]. *)
Definition override_campus (campuses : list Campus) (u : User) (campus_override : string)
    (current : option Campus) : option Campus :=
  match py_int campus_override with
  | Some n =>
      match List.find (fun c => (campus_pk c =? n) &&
                                py_in (campus_pk c) (get_accessible_campus_ids campuses u))
                      campuses with
      | Some c => Some c
      | None => current
      end
  | None => current
  end.

(** [CampusContextMiddleware.process_request]; [user] is [None] for an
    unauthenticated request, [campus_override] the [HTTP_X_CAMPUS_ID]
    header.  [request.user.campus] on a dangling foreign key makes
    [hasattr] false, which [find_campus] returning [None] models. *)
Definition process_request (campuses : list Campus) (user : option User)
    (campus_override : option string) : RequestContext :=
  match user with
  | None => {| request_campus := None; request_accessible_campuses := [] |}
  | Some u =>
      let home := find_campus campuses (user_campus_id u) in
      let accessible_ids := get_accessible_campus_ids campuses u in
      let accessible := List.filter (fun c => py_in (campus_pk c) accessible_ids &&
                                              campus_is_active c) campuses in
      let campus :=
        match campus_override with
        | Some s =>
            if negb (bool_decide (s = ""%string)) && is_admin_role u
            then override_campus campuses u s home
            else home
        | None => home
        end in
      {| request_campus := campus; request_accessible_campuses := accessible |}
  end.

(** [CampusContextMiddleware.process_response]: the headers it adds. *)
Definition process_response (ctx : RequestContext) : list (string * string) :=
  match request_campus ctx with
  | Some c => [("X-Campus-ID", py_str (campus_pk c)); ("X-Campus-Code", campus_code c)]%string
  | None => []
  end.

(** ** The campus viewset *)

(** [CampusViewSet.get_queryset]. *)
Definition get_queryset (campuses : list Campus) (u : User) : list Campus :=
  if is_role super_admin u then campuses
  else List.filter (fun c => py_in (campus_pk c) (get_accessible_campus_ids campuses u)) campuses.

(** ** The contract of the effective campus (spec 4.1) *)

(** A requested override is honoured only for a campus or super admin and
    only when it is in the resolved accessible set; otherwise the home
    campus stays effective. *)
Definition spec_effective_campus (campuses : list Campus) (u : User) (requested : option Z) : Z :=
  match requested with
  | Some n => if is_admin_role u && can_access_campus campuses u n then n else user_campus_id u
  | None => user_campus_id u
  end.

(** Every campus id the user can be granted names a row of the table. *)
Definition refs_wf (campuses : list Campus) (u : User) : Prop :=
  (exists c, In c campuses /\ campus_pk c = user_campus_id u) /\
  Forall (fun id => exists c, In c campuses /\ campus_pk c = id) (accessible_campus_ids u).

(** The override the request asks for: the header parsed by [int()]. *)
Definition requested_override (campus_override : option string) : option Z :=
  match campus_override with Some s => py_int s | None => None end.

(** [refs_wf] as a test. *)
Definition refs_wf_b (campuses : list Campus) (u : User) : bool :=
  existsb (fun c => campus_pk c =? user_campus_id u) campuses &&
  forallb (fun id => existsb (fun c => campus_pk c =? id) campuses) (accessible_campus_ids u).

(** ** Lemmas *)

Lemma refs_wf_b_sound campuses u : refs_wf_b campuses u = true -> refs_wf campuses u.
Proof.
  unfold refs_wf_b, refs_wf. intros H. eas_bool. split.
  - apply existsb_exists in H as (c & Hc & Hp). eas_bool. eauto.
  - apply List.Forall_forall. intros id Hid. rewrite forallb_forall in H0.
    apply H0, existsb_exists in Hid as (c & Hc & Hp). eas_bool. eauto.
Qed.

Lemma in_for_campus {A} `{CampusScoped A} c (qs : list A) r :
  In r (for_campus c qs) <-> In r qs /\ campus_of r = Some c.
Proof. unfold for_campus. rewrite filter_In, bool_decide_eq_true. reflexivity. Qed.

Lemma find_campus_some campuses id c :
  find_campus campuses id = Some c -> In c campuses /\ campus_pk c = id.
Proof. intros H. apply find_some_in in H as [Hin Hp]. eas_bool. auto. Qed.

Lemma find_campus_exists campuses id :
  (exists c, In c campuses /\ campus_pk c = id) ->
  exists c, find_campus campuses id = Some c /\ campus_pk c = id.
Proof.
  intros (c & Hin & Hpk). destruct (find_campus campuses id) as [c'|] eqn:E.
  - exists c'. split; [reflexivity|]. apply find_campus_some in E. tauto.
  - exfalso. unfold find_campus in E. eapply find_none in E; [|exact Hin].
    rewrite Hpk, Z.eqb_refl in E. discriminate.
Qed.

Lemma py_str_nonempty z : py_str z <> ""%string.
Proof. intros H. pose proof (py_int_py_str z) as E. rewrite H in E. discriminate. Qed.

Lemma is_admin_role_false u :
  role u <> campus_admin -> role u <> super_admin -> is_admin_role u = false.
Proof.
  intros H1 H2. unfold is_admin_role, is_role.
  rewrite !bool_decide_eq_false_2 by assumption. reflexivity.
Qed.

(** The campus [process_request] attaches, by the shape of the header. *)
Lemma request_campus_eq campuses u ov :
  request_campus (process_request campuses (Some u) ov) =
    match ov with
    | Some s => if negb (bool_decide (s = ""%string)) && is_admin_role u
                then override_campus campuses u s (find_campus campuses (user_campus_id u))
                else find_campus campuses (user_campus_id u)
    | None => find_campus campuses (user_campus_id u)
    end.
Proof. reflexivity. Qed.

(** Every id the user may be granted names a row, on a well-formed table. *)
Lemma accessible_ids_exist campuses u n :
  refs_wf campuses u -> In n (get_accessible_campus_ids campuses u) ->
  exists c, In c campuses /\ campus_pk c = n.
Proof.
  intros [Hhome Hrefs] Hin. destruct (role u) eqn:Hr.
  - rewrite get_accessible_campus_ids_other in Hin by congruence.
    destruct Hin as [<-|[]]. exact Hhome.
  - rewrite get_accessible_campus_ids_other in Hin by congruence.
    destruct Hin as [<-|[]]. exact Hhome.
  - rewrite get_accessible_campus_ids_admin in Hin by exact Hr.
    destruct (accessible_campus_ids u) as [|a l]; [destruct Hin as [<-|[]]; exact Hhome|].
    rewrite List.Forall_forall in Hrefs. apply Hrefs, Hin.
  - rewrite get_accessible_campus_ids_super in Hin by exact Hr.
    apply in_active_campus_ids in Hin as (k & Hk & _ & Hpk). eauto.
Qed.

(** The override branch yields the requested campus when it is accessible
    and keeps the current campus otherwise. *)
Lemma override_campus_pk campuses u s current :
  refs_wf campuses u ->
  option_map campus_pk (override_campus campuses u s current) =
    match py_int s with
    | Some n => if can_access_campus campuses u n then Some n else option_map campus_pk current
    | None => option_map campus_pk current
    end.
Proof.
  intros Hwf. unfold override_campus, can_access_campus.
  destruct (py_int s) as [n|]; [|reflexivity].
  destruct (List.find _ campuses) as [c|] eqn:E.
  - apply find_some_in in E as [Hin Hp]. eas_bool. subst n.
    rewrite (proj2 (py_in_spec _ _) H0). reflexivity.
  - destruct (py_in n _) eqn:Hn; [|reflexivity]. exfalso.
    apply py_in_spec in Hn. destruct (accessible_ids_exist campuses u n Hwf Hn) as (c & Hc & Hpk).
    eapply find_none in E; [|exact Hc]. subst n.
    rewrite Z.eqb_refl, (proj2 (py_in_spec _ _) Hn) in E. discriminate.
Qed.

(** Where an attached campus comes from: the home campus, or an
    accessible campus an admin asked for. *)
Lemma request_campus_origin campuses u ov c :
  request_campus (process_request campuses (Some u) ov) = Some c ->
  In c campuses /\
  (find_campus campuses (user_campus_id u) = Some c \/
   (is_admin_role u = true /\ py_in (campus_pk c) (get_accessible_campus_ids campuses u) = true)).
Proof.
  rewrite request_campus_eq. intros H.
  assert (Hhome : find_campus campuses (user_campus_id u) = Some c ->
                  In c campuses /\ (find_campus campuses (user_campus_id u) = Some c \/ False))
    by (intros E; split; [apply (find_campus_some _ _ _ E)|left; exact E]).
  destruct ov as [s|]; [|destruct (Hhome H); tauto].
  destruct (negb _ && is_admin_role u) eqn:Hg; [|destruct (Hhome H); tauto].
  apply andb_true_iff in Hg as [_ Hadm]. unfold override_campus in H.
  destruct (py_int s); [|destruct (Hhome H); tauto].
  destruct (List.find _ campuses) as [c'|] eqn:E; [|destruct (Hhome H); tauto].
  injection H as <-. apply find_some_in in E as [Hin Hp].
  apply andb_true_iff in Hp as [_ Hp]. auto.
Qed.

(** ** Properties *)

(** C2: for a student or an organizer the middleware attaches the home
    campus whatever [X-Campus-ID] header is sent, and every campus in
    [request.accessible_campuses] is the home campus. *)
Theorem process_request_non_admin campuses u ov :
  role u <> campus_admin -> role u <> super_admin ->
  request_campus (process_request campuses (Some u) ov) = find_campus campuses (user_campus_id u) /\
  Forall (fun c => campus_pk c = user_campus_id u)
         (request_accessible_campuses (process_request campuses (Some u) ov)).
Proof.
  intros H1 H2. split.
  - rewrite request_campus_eq, is_admin_role_false by assumption.
    destruct ov; [rewrite andb_false_r|]; reflexivity.
  - cbn. rewrite get_accessible_campus_ids_other by assumption.
    apply List.Forall_forall. intros c Hc. apply filter_In in Hc as [_ Hc].
    apply andb_true_iff in Hc as [Hc _]. rewrite py_in_cons in Hc. simpl in Hc.
    rewrite orb_false_r in Hc. eas_bool. exact Hc.
Qed.

(** C3: on a campus table where the home campus and every explicitly
    granted campus exist, the campus the middleware attaches is the
    effective campus of the tenant contract: the parsed override when the
    user is an admin who may access it, the home campus otherwise
    (an invalid header, a non-admin, an inaccessible campus). *)
Theorem process_request_refines campuses u ov :
  refs_wf campuses u ->
  option_map campus_pk (request_campus (process_request campuses (Some u) ov)) =
    Some (spec_effective_campus campuses u (requested_override ov)).
Proof.
  intros Hwf. rewrite request_campus_eq.
  destruct (find_campus_exists campuses (user_campus_id u) (proj1 Hwf)) as (h & Hh & Hpk).
  rewrite Hh. unfold spec_effective_campus, requested_override.
  destruct ov as [s|]; cbn; [|congruence].
  destruct (bool_decide (s = ""%string)) eqn:Hs.
  - apply bool_decide_eq_true in Hs. subst s. cbn. congruence.
  - destruct (is_admin_role u) eqn:Ha; cbn.
    + rewrite override_campus_pk by exact Hwf.
      destruct (py_int s) as [n|]; cbn; [|congruence].
      destruct (can_access_campus campuses u n); cbn; congruence.
    + destruct (py_int s); cbn; congruence.
Qed.

(** C4: the campus the middleware wrote to the [X-Campus-ID] response
    header, sent back as the request header of the same user, selects the
    same campus again (for every role): [int(str(id))] recovers the id and
    the middleware's choice is stable. *)
Theorem campus_header_roundtrip campuses u ov c :
  List.NoDup (map campus_pk campuses) ->
  request_campus (process_request campuses (Some u) ov) = Some c ->
  request_campus (process_request campuses (Some u)
                    (List.head (map snd (process_response (process_request campuses (Some u) ov)))))
    = Some c.
Proof.
  intros Hnd Hc. unfold process_response. rewrite Hc. cbn [map List.head snd].
  apply request_campus_origin in Hc as [Hin Horig].
  rewrite request_campus_eq, bool_decide_eq_false_2 by apply py_str_nonempty. cbn [negb andb].
  destruct (is_admin_role u) eqn:Ha; [|destruct Horig as [H|[H _]]; [exact H|discriminate]].
  unfold override_campus. rewrite py_int_py_str.
  destruct (List.find _ campuses) as [c'|] eqn:E.
  - apply find_some_in in E as [Hin' Hp]. apply andb_true_iff in Hp as [Hp _]. eas_bool.
    f_equal. eapply NoDup_map_key; eauto.
  - destruct Horig as [H|[_ Hacc]]; [exact H|]. exfalso.
    eapply find_none in E; [|exact Hin]. rewrite Z.eqb_refl, Hacc in E. discriminate.
Qed.

(** C5: for every user but a super admin, [accessible_to_user] returns only
    rows of the table that belong to the user's home campus or to a campus
    the user may access, whatever campus id is requested. *)
Theorem accessible_to_user_scoped {A} `{CampusScoped A} campuses u campus_id (qs : list A) r :
  role u <> super_admin ->
  In r (accessible_to_user campuses u campus_id qs) ->
  In r qs /\ exists c, campus_of r = Some c /\
                     (c = user_campus_id u \/ In c (get_accessible_campus_ids campuses u)).
Proof.
  intros Hr. unfold accessible_to_user, is_role. rewrite bool_decide_eq_false_2 by exact Hr.
  destruct campus_id as [c|].
  - destruct (negb (c =? 0) && py_in c _) eqn:E; rewrite in_for_campus; intros [Hin Hc];
      split; try exact Hin; eexists; split; try exact Hc; [right|left; reflexivity].
    eas_bool. assumption.
  - rewrite in_for_campus. intros [Hin Hc]. eauto.
Qed.

(** C6: [accessible_to_user] gives a super admin the rows of any nonzero
    campus id it is passed, also of a campus outside the super admin's
    accessible set (inactive or missing); the tenant contract honours an
    override only inside the accessible set. *)
Theorem accessible_to_user_super_unchecked {A} `{CampusScoped A} campuses u c (qs : list A) :
  role u = super_admin -> c <> 0 -> ~ In c (get_accessible_campus_ids campuses u) ->
  accessible_to_user campuses u (Some c) qs = for_campus c qs.
Proof.
  intros Hr Hc _. unfold accessible_to_user, is_role. rewrite bool_decide_eq_true_2 by exact Hr.
  apply Z.eqb_neq in Hc. rewrite Hc. reflexivity.
Qed.

(** C7: the campus viewset lists, for a super admin, every campus of the
    table, inactive ones included, and for any other user exactly the rows
    whose id the user may access. *)
Theorem get_queryset_spec campuses u c :
  In c (get_queryset campuses u) <->
  In c campuses /\ (role u = super_admin \/ In (campus_pk c) (get_accessible_campus_ids campuses u)).
Proof.
  unfold get_queryset. destruct (is_role super_admin u) eqn:E.
  - apply is_role_true in E. tauto.
  - rewrite filter_In, py_in_spec. split; [tauto|].
    intros [Hin [Hr|Hacc]]; [|tauto]. apply is_role_true in Hr. congruence.
Qed.

(** ** Witnesses, on the seeded SNSU campuses *)

Lemma process_request_non_admin_witness :
  request_campus (process_request campuses_data (Some (Setup.new_user 3 1 demo_student))
                    (Some "2"%string)) = find_campus campuses_data 1 /\
  Forall (fun c => campus_pk c = 1)
    (request_accessible_campuses (process_request campuses_data
       (Some (Setup.new_user 3 1 demo_student)) (Some "2"%string))).
Proof.
  apply (process_request_non_admin campuses_data (Setup.new_user 3 1 demo_student)); cbn; discriminate.
Defined.

(** A campus admin of campuses 2 and 3, home campus 1, asks for campus 4:
    the override is ignored and campus 1 stays effective (spec 8). *)
Lemma process_request_refines_witness :
  option_map campus_pk (request_campus (process_request campuses_data
    (Some (mkUser 10 "cadmin" "" "" "" 1 "" "" campus_admin true true false [2; 3]))
    (Some "4"%string))) =
    Some (spec_effective_campus campuses_data
            (mkUser 10 "cadmin" "" "" "" 1 "" "" campus_admin true true false [2; 3])
            (requested_override (Some "4"%string))) /\
  spec_effective_campus campuses_data
    (mkUser 10 "cadmin" "" "" "" 1 "" "" campus_admin true true false [2; 3])
    (requested_override (Some "4"%string)) = 1.
Proof.
  split.
  - apply process_request_refines. apply refs_wf_b_sound. vm_compute. reflexivity.
  - vm_compute. reflexivity.
Defined.

Lemma campus_header_roundtrip_witness :
  request_campus (process_request campuses_data
    (Some (mkUser 10 "cadmin" "" "" "" 1 "" "" campus_admin true true false [2; 3]))
    (List.head (map snd (process_response (process_request campuses_data
       (Some (mkUser 10 "cadmin" "" "" "" 1 "" "" campus_admin true true false [2; 3]))
       (Some "2"%string)))))) = nth_error campuses_data 1.
Proof.
  apply campus_header_roundtrip.
  - cbn. repeat constructor; cbn; lia.
  - vm_compute. reflexivity.
Defined.

Lemma accessible_to_user_scoped_witness :
  In (Setup.new_user 3 1 demo_student) [Setup.new_user 3 1 demo_student] /\
  exists c, campus_of (Setup.new_user 3 1 demo_student) = Some c /\
    (c = 1 \/ In c (get_accessible_campus_ids campuses_data (Setup.new_user 3 1 demo_student))).
Proof.
  apply (accessible_to_user_scoped campuses_data (Setup.new_user 3 1 demo_student) (Some 2)).
  - cbn. discriminate.
  - vm_compute. left. reflexivity.
Defined.

(** A super admin asking [accessible_to_user] for campus 5, which does not
    exist, gets the rows of campus 5. *)
Lemma accessible_to_user_super_unchecked_witness :
  accessible_to_user campuses_data (Setup.new_user 1 1 demo_admin) (Some 5)
    [Setup.new_user 1 1 demo_admin] = for_campus 5 [Setup.new_user 1 1 demo_admin].
Proof.
  apply accessible_to_user_super_unchecked.
  - reflexivity.
  - lia.
  - apply py_in_false. vm_compute. reflexivity.
Defined.

End Tenancy.
