(* ===== verification/Events.v ===== *)
(** * Events: the attendance window, the QR payload and the eligibility gate

    The methods of [Event] (src/backend/apps/events/models.py):
    - [Event.save] computes the attendance window once, when none is set, as
      thirty minutes either side of the event's start ([event_save_window]),
      persists the row and, when the event has no QR image yet, calls
      [generate_qr_code], which stores the payload
      [https://easuniversity.site/attend/<id>] ([save_event]);
    - [is_ongoing], [can_mark_attendance], [attendance_count],
      [capacity_percentage], [get_attendance_for_campus];
    - [can_user_attend], the four gates of eligibility in the code's order:
      campus, capacity, duplicate, window.

    The event table is a list of rows keyed by [event_pk]; the attendance
    table a list of [Attendance] rows.  [timezone.now()] is the argument
    [now]; [timezone.make_aware] subtracts the fixed UTC offset [tz] (in
    seconds) of the configured zone.  The reference definition
    [spec_check] states spec 4.5's gates 1-4 with its error kinds. *)

From S2P Require Import Prelude Schema.
From Stdlib Require Import QArith.
Open Scope Z_scope.

Module Events.

(** ** Dates and times *)

Definition seconds_per_day : Z := 86400.

(** [datetime.combine(date, time)]: a naive local datetime. *)
Definition combine (date time : Z) : Z := date * seconds_per_day + time.

(** [timezone.make_aware] in a zone [tz] seconds east of UTC. *)
Definition make_aware (tz local : Z) : Z := local - tz.

(** [timezone.timedelta(minutes=m)]. *)
Definition timedelta_minutes (m : Z) : Z := m * 60.

(** ** Field assignments on an instance *)

Definition set_window (e : Event) (s t : option Z) : Event :=
  mkEvent (event_pk e) (event_campus_id e) (organizer_id e) (title e) (event_type e)
    (event_date e) (start_time e) (end_time e) (venue e) (location_coordinates e)
    (is_multi_campus e) (allowed_campuses e) (max_participants e) (requires_registration e)
    (qr_code e) (qr_code_data e) s t (event_status e) (event_is_active e)
    (requires_selfie e) (requires_gps e) (requires_signature e) (event_created_at e).

Definition set_qr (e : Event) (code : option string) (data : string) : Event :=
  mkEvent (event_pk e) (event_campus_id e) (organizer_id e) (title e) (event_type e)
    (event_date e) (start_time e) (end_time e) (venue e) (location_coordinates e)
    (is_multi_campus e) (allowed_campuses e) (max_participants e) (requires_registration e)
    code data (attendance_window_start e) (attendance_window_end e) (event_status e)
    (event_is_active e) (requires_selfie e) (requires_gps e) (requires_signature e)
    (event_created_at e).

(** ** [Event.save] *)

(** The window branch of [Event.save]: only when no window start is set
    ([date] and [start_time] are required fields, always truthy). *)
Definition event_save_window (tz : Z) (e : Event) : Event :=
  match attendance_window_start e with
  | Some _ => e
  | None =>
      let event_datetime := make_aware tz (combine (event_date e) (start_time e)) in
      set_window e (Some (event_datetime - timedelta_minutes 30))
                   (Some (event_datetime + timedelta_minutes 30))
  end.

Definition qr_payload (id : string) : string := "https://easuniversity.site/attend/" +:+ id.

(** [generate_qr_code]: the payload and the image file name (the image
    pixels are not modelled). *)
Definition generate_qr_code (e : Event) : Event :=
  if bool_decide (event_pk e = ""%string) then e
  else set_qr e (Some ("qr_codes/qr_event_" +:+ event_pk e +:+ ".png")%string)
              (qr_payload (event_pk e)).

(** [super().save()]: update the row with the same key, or insert. *)
Definition upsert_event (e : Event) (events : list Event) : list Event :=
  if existsb (fun r => bool_decide (event_pk r = event_pk e)) events
  then map (fun r => if bool_decide (event_pk r = event_pk e) then e else r) events
  else events ++ [e].

(** [Event.objects.filter(id=self.id).update(qr_code=..., qr_code_data=...)]. *)
Definition update_qr_fields (e : Event) (events : list Event) : list Event :=
  map (fun r => if bool_decide (event_pk r = event_pk e)
                then set_qr r (qr_code e) (qr_code_data e)
                else r) events.

(** [bool(self.qr_code)]: a [FieldFile] is truthy when it has a
    non-empty file name. *)
Definition file_truthy (f : option string) : bool :=
  match f with
  | Some name => negb (bool_decide (name = ""%string))
  | None => false
  end.

(** [Event.save]: the new table and the saved instance. *)
Definition save_event (tz : Z) (events : list Event) (e : Event) : list Event * Event :=
  let e1 := event_save_window tz e in
  let events1 := upsert_event e1 events in
  if file_truthy (qr_code e1) then (events1, e1)
  else let e2 := generate_qr_code e1 in (update_qr_fields e2 events1, e2).

(** ** Properties of an event *)

(** [is_ongoing]. *)
Definition is_ongoing (tz now : Z) (e : Event) : bool :=
  let event_start := make_aware tz (combine (event_date e) (start_time e)) in
  let event_end := make_aware tz (combine (event_date e) (end_time e)) in
  (event_start <=? now) && (now <=? event_end).

(** [can_mark_attendance]. *)
Definition can_mark_attendance (now : Z) (e : Event) : bool :=
  match attendance_window_start e, attendance_window_end e with
  | Some s, Some t => (s <=? now) && (now <=? t)
  | _, _ => false
  end.

Definition is_present (a : Attendance) : bool := bool_decide (att_status a = present).

Definition of_event (e : Event) (a : Attendance) : bool := bool_decide (att_event a = event_pk e).

(** [attendance_count]: the event's records with status [present]. *)
Definition attendance_count (e : Event) (records : list Attendance) : Z :=
  Z.of_nat (count_where (fun a => of_event e a && is_present a) records).

(** [capacity_percentage]: Python's float division is taken as exact
    division in [Q]; the rounding of the float result is not modelled. *)
Definition capacity_percentage (e : Event) (records : list Attendance) : option Q :=
  match max_participants e with
  | Some m => if negb (m =? 0) then Some (inject_Z (attendance_count e records) / inject_Z m * 100)%Q
              else None
  | None => None
  end.

(** [get_attendance_for_campus]. *)
Definition get_attendance_for_campus (e : Event) (records : list Attendance) (campus_id : Z) : Z :=
  Z.of_nat (count_where (fun a => of_event e a && bool_decide (att_campus_id a = Some campus_id)
                                  && is_present a) records).

(** ** [can_user_attend] *)

Definition msg_campus : string := "Event not available for your campus".
Definition msg_capacity : string := "Event is at capacity".
Definition msg_duplicate : string := "Already marked attendance for this event".
Definition msg_window : string := "Attendance window is closed".
Definition msg_ok : string := "Can attend".

(** [self.max_participants and self.attendance_count >= self.max_participants]. *)
Definition at_capacity (e : Event) (records : list Attendance) : bool :=
  match max_participants e with
  | Some m => negb (m =? 0) && (m <=? attendance_count e records)
  | None => false
  end.

(** [self.attendance_records.filter(user=user).exists()]. *)
Definition already_marked (e : Event) (records : list Attendance) (u : User) : bool :=
  existsb (fun a => of_event e a && (att_user a =? user_pk u)) records.

Definition can_user_attend (now : Z) (e : Event) (records : list Attendance) (u : User)
    : bool * string :=
  if negb (is_multi_campus e) && negb (user_campus_id u =? event_campus_id e) then (false, msg_campus)
  else if is_multi_campus e && negb (py_in (user_campus_id u) (allowed_campuses e)) then (false, msg_campus)
  else if at_capacity e records then (false, msg_capacity)
  else if already_marked e records u then (false, msg_duplicate)
  else if negb (can_mark_attendance now e) then (false, msg_window)
  else (true, msg_ok).

(** ** The gates of spec 4.5, 1-4, as a reference *)

Inductive EligibilityError := NotEligibleForCampus | EventAtCapacity | AlreadyMarked | WindowClosed.

Definition eligibility_message (err : EligibilityError) : string :=
  match err with
  | NotEligibleForCampus => msg_campus
  | EventAtCapacity => msg_capacity
  | AlreadyMarked => msg_duplicate
  | WindowClosed => msg_window
  end.

(** Gate [i] holds; the first gate that does not is reported. *)
Definition spec_gates (now : Z) (e : Event) (records : list Attendance) (u : User)
    : list (bool * EligibilityError) :=
  [ (if is_multi_campus e then py_in (user_campus_id u) (allowed_campuses e)
     else user_campus_id u =? event_campus_id e, NotEligibleForCampus);
    (match max_participants e with
     | Some m => attendance_count e records <? m
     | None => true
     end, EventAtCapacity);
    (negb (existsb (fun a => of_event e a && (att_user a =? user_pk u)) records), AlreadyMarked);
    (match attendance_window_start e, attendance_window_end e with
     | Some s, Some t => (s <=? now) && (now <=? t)
     | _, _ => false
     end, WindowClosed) ].

Fixpoint first_failure (gates : list (bool * EligibilityError)) : option EligibilityError :=
  match gates with
  | [] => None
  | (ok, err) :: rest => if ok then first_failure rest else Some err
  end.

Definition spec_check (now : Z) (e : Event) (records : list Attendance) (u : User)
    : option EligibilityError :=
  first_failure (spec_gates now e records u).

(** ** Lemmas *)

Lemma set_qr_window e code data :
  attendance_window_start (set_qr e code data) = attendance_window_start e /\
  attendance_window_end (set_qr e code data) = attendance_window_end e.
Proof. split; reflexivity. Qed.

Lemma generate_qr_code_window e :
  attendance_window_start (generate_qr_code e) = attendance_window_start e /\
  attendance_window_end (generate_qr_code e) = attendance_window_end e.
Proof. unfold generate_qr_code. case_decide; [split; reflexivity|apply set_qr_window]. Qed.

(** The instance [save_event] returns: the windowed event, with its QR
    payload generated when it had no QR image. *)
Lemma save_event_instance tz events e :
  snd (save_event tz events e) =
    if file_truthy (qr_code (event_save_window tz e)) then event_save_window tz e
    else generate_qr_code (event_save_window tz e).
Proof. unfold save_event. destruct (file_truthy _); reflexivity. Qed.

Lemma event_save_window_keeps e tz :
  attendance_window_start e <> None -> event_save_window tz e = e.
Proof. unfold event_save_window. destruct (attendance_window_start e); congruence. Qed.

(** Saving an instance that has a window and a QR image returns it unchanged. *)
Lemma save_event_saved_again tz events x :
  attendance_window_start x <> None -> file_truthy (qr_code x) = true ->
  snd (save_event tz events x) = x.
Proof.
  intros Hw Hq. unfold save_event. rewrite event_save_window_keeps by exact Hw.
  rewrite Hq. reflexivity.
Qed.

Lemma set_qr_same e : set_qr e (qr_code e) (qr_code_data e) = e.
Proof. destruct e; reflexivity. Qed.

Lemma in_update_qr_fields r x events :
  In r events -> event_pk r = event_pk x ->
  In (set_qr r (qr_code x) (qr_code_data x)) (update_qr_fields x events).
Proof.
  intros H Hpk. unfold update_qr_fields. apply in_map_iff. exists r. split; [|exact H].
  rewrite bool_decide_eq_true_2 by exact Hpk. reflexivity.
Qed.

Lemma in_upsert_event e events : In e (upsert_event e events).
Proof.
  unfold upsert_event. destruct (existsb _ events) eqn:E.
  - apply existsb_exists in E as (r & Hr & Hp). apply in_map_iff. exists r. split; [|exact Hr].
    rewrite Hp. reflexivity.
  - apply in_or_app. right. left. reflexivity.
Qed.

Lemma attendance_count_nonneg e records : 0 <= attendance_count e records.
Proof. unfold attendance_count. lia. Qed.

(** An applicant who passes spec 4.5's gates 1-4 passes [can_user_attend]. *)
Lemma spec_check_none_attend now e records u :
  spec_check now e records u = None -> can_user_attend now e records u = (true, msg_ok).
Proof.
  unfold spec_check, spec_gates, can_user_attend, at_capacity, already_marked, can_mark_attendance.
  cbn [first_failure].
  destruct (is_multi_campus e), (py_in _ _), (user_campus_id u =? event_campus_id e);
    cbn [negb andb]; try discriminate.
  all: destruct (max_participants e) as [m|]; cbn [negb andb].
  all: try (destruct (attendance_count e records <? m) eqn:H1; [|discriminate];
            destruct (m =? 0) eqn:H2; destruct (m <=? attendance_count e records) eqn:H3;
            eas_bool; try lia; cbn [negb andb]).
  all: destruct (existsb _ records); cbn [negb andb]; try discriminate.
  all: destruct (attendance_window_start e), (attendance_window_end e); try discriminate.
  all: destruct (_ && _); cbn [negb]; congruence.
Qed.

(** ** Properties *)

(** C9: saving an event that has no attendance window sets it to thirty
    minutes before and after the start, made aware in the configured zone;
    neither the end time nor the campus's [attendance_window_minutes] is
    used. *)
Theorem save_event_window tz events e :
  attendance_window_start e = None ->
  attendance_window_start (snd (save_event tz events e)) =
    Some (make_aware tz (combine (event_date e) (start_time e)) - 1800) /\
  attendance_window_end (snd (save_event tz events e)) =
    Some (make_aware tz (combine (event_date e) (start_time e)) + 1800).
Proof.
  intros H. rewrite save_event_instance.
  assert (Hw : event_save_window tz e =
    set_window e (Some (make_aware tz (combine (event_date e) (start_time e)) - 1800))
                 (Some (make_aware tz (combine (event_date e) (start_time e)) + 1800)))
    by (unfold event_save_window; rewrite H; reflexivity).
  rewrite Hw. destruct (file_truthy _).
  - split; reflexivity.
  - rewrite (proj1 (generate_qr_code_window _)), (proj2 (generate_qr_code_window _)).
    split; reflexivity.
Qed.

(** C10: [Event.save] stores the saved instance in the table, with the QR
    payload [https://easuniversity.site/attend/<id>] when the event had no
    QR image; saving that instance again changes neither it (the window and
    the QR code are kept) nor its payload. *)
Theorem save_event_qr tz events events' e :
  event_pk e <> ""%string -> qr_code e = None ->
  In (snd (save_event tz events e)) (fst (save_event tz events e)) /\
  qr_code_data (snd (save_event tz events e)) = qr_payload (event_pk e) /\
  snd (save_event tz events' (snd (save_event tz events e))) = snd (save_event tz events e).
Proof.
  intros Hid Hqr.
  assert (Hq1 : qr_code (event_save_window tz e) = None)
    by (unfold event_save_window; destruct (attendance_window_start e); exact Hqr).
  assert (Hpk : event_pk (event_save_window tz e) = event_pk e)
    by (unfold event_save_window; destruct (attendance_window_start e); reflexivity).
  assert (Hg : generate_qr_code (event_save_window tz e) =
               set_qr (event_save_window tz e)
                 (Some ("qr_codes/qr_event_" +:+ event_pk e +:+ ".png")%string)
                 (qr_payload (event_pk e)))
    by (unfold generate_qr_code; rewrite Hpk, bool_decide_eq_false_2 by exact Hid; reflexivity).
  assert (Hsnd : snd (save_event tz events e) =
                 set_qr (event_save_window tz e)
                   (Some ("qr_codes/qr_event_" +:+ event_pk e +:+ ".png")%string)
                   (qr_payload (event_pk e)))
    by (unfold save_event; rewrite Hq1; exact Hg).
  split; [|split].
  - unfold save_event. rewrite Hq1. cbn [file_truthy fst snd]. rewrite Hg.
    match goal with |- In _ (update_qr_fields ?x ?l) =>
      apply (in_update_qr_fields (event_save_window tz e) x l) end;
      [apply in_upsert_event|reflexivity].
  - rewrite Hsnd. reflexivity.
  - rewrite Hsnd. apply save_event_saved_again;
      [|cbn [set_qr qr_code file_truthy]; rewrite bool_decide_eq_false_2 by discriminate; reflexivity].
    unfold event_save_window. destruct (attendance_window_start e) eqn:E; cbn; [rewrite E|]; discriminate.
Qed.

(** C11: attendance can be marked at [now] exactly when the event has both
    window bounds and [now] lies between them, both ends included: never
    without a window (a missing start or end), at the start and the end
    themselves, never one second outside. *)
Theorem can_mark_attendance_bounds e now :
  can_mark_attendance now e = true <->
  exists s t, attendance_window_start e = Some s /\ attendance_window_end e = Some t /\
              s <= now <= t.
Proof.
  unfold can_mark_attendance.
  destruct (attendance_window_start e) as [s|], (attendance_window_end e) as [t|];
    split; try discriminate; try (intros (? & ? & ? & ? & _); discriminate).
  - rewrite andb_true_iff, !Z.leb_le. intros H. exists s, t. auto.
  - intros (s' & t' & [= <-] & [= <-] & H). apply andb_true_iff. rewrite !Z.leb_le. exact H.
Qed.

(** C12: [can_user_attend] is the reference check of spec 4.5, gates 1-4 in
    that order (campus, capacity, duplicate, window), reporting the first
    failing gate's message, for every event whose capacity is not 0. *)
Theorem can_user_attend_spec now e records u :
  max_participants e <> Some 0 ->
  can_user_attend now e records u =
    match spec_check now e records u with
    | None => (true, msg_ok)
    | Some err => (false, eligibility_message err)
    end.
Proof.
  intros Hmax. unfold can_user_attend, spec_check, spec_gates, at_capacity, already_marked,
    can_mark_attendance. cbn [first_failure].
  destruct (is_multi_campus e); cbn [negb andb].
  all: try destruct (py_in _ _); try destruct (user_campus_id u =? event_campus_id e);
    cbn [negb andb]; try reflexivity.
  all: destruct (max_participants e) as [m|]; [|cbn [negb andb]].
  all: try (destruct (m =? 0) eqn:Hm; [eas_bool; congruence|]; cbn [negb andb];
            destruct (m <=? attendance_count e records) eqn:H1;
            destruct (attendance_count e records <? m) eqn:H2; eas_bool; try lia;
            cbn [negb andb]; try reflexivity).
  all: destruct existsb; cbn [negb andb]; try reflexivity.
  all: destruct (attendance_window_start e), (attendance_window_end e); try reflexivity.
  all: destruct (_ && _); reflexivity.
Qed.

(** C13: for an event that is not multi-campus, a user from another campus
    is always refused with the campus message, whatever the capacity,
    records and time. *)
Theorem can_user_attend_other_campus now e records u :
  is_multi_campus e = false -> user_campus_id u <> event_campus_id e ->
  can_user_attend now e records u = (false, msg_campus).
Proof.
  intros Hm Hc. unfold can_user_attend. rewrite Hm. apply Z.eqb_neq in Hc. rewrite Hc. reflexivity.
Qed.

(** C14: a capacity of 0 disables the capacity gate ([if max_participants]
    is false for 0), while the spec's gate [count < max_participants]
    rejects every attendee of such an event. *)
Theorem capacity_zero_unlimited e records :
  max_participants e = Some 0 ->
  at_capacity e records = false /\ (attendance_count e records <? 0) = false.
Proof.
  intros H. unfold at_capacity. rewrite H. split; [reflexivity|].
  apply Z.ltb_ge, attendance_count_nonneg.
Qed.

End Events.
