(* ===== verification/AttendanceStore.v ===== *)
(** * AttendanceStore: [Attendance.save] under the table's unique constraints

    [Attendance.save] (src/backend/apps/attendance/models.py) fills in the
    campus (the event's, when none is set), the cross-campus flag (the
    user's campus differs from the event's) and the arrival time (the time
    of [marked_at], when none is set), then [super().save()] writes the row.
    The table is the list [att_rows] with the primary-key sequence
    [att_next_pk]; the database enforces [unique_together = ['event',
    'user']] and the uniqueness of the primary key, and a violating write
    raises [IntegrityError] ([db_save]).  [is_late] compares the arrival
    time with the event's start time.

    [store_wf] (unique keys, unique primary keys, every row saved) is the
    invariant: every save preserves it, so no two records ever share an
    (event, user) pair. *)

From S2P Require Import Prelude Schema Events.
Open Scope Z_scope.

Module AttendanceStore.
Import Events.

Inductive IntegrityError := UniqueEventUser | UniquePrimaryKey.

Record AttStore := mkAttStore { att_rows : list Attendance; att_next_pk : Z }.

(** ** Field assignments on an instance *)

Definition set_att_fields (a : Attendance) (pk campus : option Z) (cross : bool)
    (arrival : option Z) : Attendance :=
  mkAttendance pk campus (att_event a) (att_user a) (att_status a) (verification_method a)
    cross (selfie_image a) (signature_image a) (gps_coordinates a) (marked_at a) arrival
    (departure_time a) (att_is_verified a) (verification_score a) (verification_notes a)
    (ip_address a) (user_agent a) (marked_by a).

Definition set_att_pk (a : Attendance) (pk : Z) : Attendance :=
  set_att_fields a (Some pk) (att_campus_id a) (cross_campus_attendance a) (arrival_time a).

(** ** [Attendance.save] *)

(** [marked_at.time()]: [marked_at] is an aware datetime in UTC
    ([timezone.now]), so this is the UTC time of day. *)
Definition time_of (instant : Z) : Z := instant mod seconds_per_day.

(** The assignments [save] makes before writing; [self.event] and
    [self.user] are the rows [e] and [u]. *)
Definition prepare_attendance (e : Event) (u : User) (a : Attendance) : Attendance :=
  let campus := if py_truthy_opt (att_campus_id a) then att_campus_id a
                else Some (event_campus_id e) in
  let cross := negb (user_campus_id u =? event_campus_id e) in
  let arrival := match arrival_time a with
                 | Some t => Some t
                 | None => Some (time_of (marked_at a))
                 end in
  set_att_fields a (att_pk a) campus cross arrival.

(** The (event, user) pair of [unique_together]. *)
Definition same_pair (a b : Attendance) : bool :=
  bool_decide (att_event a = att_event b) && (att_user a =? att_user b).

Definition has_pk (p : Z) (r : Attendance) : bool := bool_decide (att_pk r = Some p).

(** [INSERT] of a row with primary key [p]. *)
Definition insert_row (st : AttStore) (a : Attendance) (p : Z) (next : Z)
    : result IntegrityError (AttStore * Attendance) :=
  let a' := set_att_pk a p in
  if existsb (has_pk p) (att_rows st) then Err UniquePrimaryKey
  else if existsb (same_pair a') (att_rows st) then Err UniqueEventUser
  else Ok ({| att_rows := att_rows st ++ [a']; att_next_pk := next |}, a').

(** [Model.save_base]: a row without primary key is inserted with the next
    value of the sequence; a row with one updates the row of that key
    ([UPDATE ... WHERE id = pk]) or, when there is none, is inserted. *)
Definition db_save (st : AttStore) (a : Attendance) : result IntegrityError (AttStore * Attendance) :=
  match att_pk a with
  | None => insert_row st a (att_next_pk st) (att_next_pk st + 1)
  | Some p =>
      if existsb (has_pk p) (att_rows st) then
        if existsb (fun r => negb (has_pk p r) && same_pair a r) (att_rows st)
        then Err UniqueEventUser
        else Ok ({| att_rows := map (fun r => if bool_decide (att_pk r = Some p) then a else r)
                                    (att_rows st);
                    att_next_pk := att_next_pk st |}, a)
      else insert_row st a p (att_next_pk st)
  end.

(** [Attendance.save]. *)
Definition save_attendance (st : AttStore) (e : Event) (u : User) (a : Attendance)
    : result IntegrityError (AttStore * Attendance) :=
  db_save st (prepare_attendance e u a).

(** [Attendance.is_late]: [arrival_time > event.start_time] ([start_time]
    is a required field, always truthy). *)
Definition is_late (e : Event) (a : Attendance) : bool :=
  match arrival_time a with
  | Some t => start_time e <? t
  | None => false
  end.

(** ** The invariant *)

Definition pair_of (a : Attendance) : string * Z := (att_event a, att_user a).

Definition store_wf (st : AttStore) : Prop :=
  List.NoDup (map pair_of (att_rows st)) /\
  List.NoDup (map att_pk (att_rows st)) /\
  Forall (fun r => att_pk r <> None) (att_rows st).

(** ** Lemmas *)

Lemma same_pair_true a b : same_pair a b = true <-> pair_of a = pair_of b.
Proof.
  unfold same_pair, pair_of. rewrite andb_true_iff, bool_decide_eq_true, Z.eqb_eq.
  split; [intros [-> ->]; reflexivity|intros H; injection H as -> ->; auto].
Qed.

Lemma existsb_same_pair_false a rows :
  existsb (same_pair a) rows = false -> ~ In (pair_of a) (map pair_of rows).
Proof.
  intros H Hin. apply in_map_iff in Hin as (r & Hr & Hin).
  assert (existsb (same_pair a) rows = true) by
    (apply existsb_exists; exists r; split; [exact Hin|apply same_pair_true; auto]).
  congruence.
Qed.

Lemma existsb_has_pk_false p rows :
  existsb (has_pk p) rows = false -> ~ In (Some p) (map att_pk rows).
Proof.
  intros H Hin. apply in_map_iff in Hin as (r & Hr & Hin).
  assert (existsb (has_pk p) rows = true) by
    (apply existsb_exists; exists r; split; [exact Hin|apply bool_decide_eq_true; auto]).
  congruence.
Qed.

Lemma set_att_pk_pair a p : pair_of (set_att_pk a p) = pair_of a.
Proof. reflexivity. Qed.

Lemma insert_row_spec st a p next st' a' :
  insert_row st a p next = Ok (st', a') ->
  a' = set_att_pk a p /\ att_rows st' = att_rows st ++ [a'] /\ att_next_pk st' = next /\
  existsb (has_pk p) (att_rows st) = false /\ existsb (same_pair a') (att_rows st) = false.
Proof.
  unfold insert_row. destruct (existsb (has_pk p) _) eqn:E1; [discriminate|].
  destruct (existsb (same_pair _) _) eqn:E2; [discriminate|]. intros [= <- <-]. auto.
Qed.

Lemma insert_row_wf st a p next st' a' :
  store_wf st -> insert_row st a p next = Ok (st', a') -> store_wf st'.
Proof.
  intros (Hpair & Hpk & Hsaved) H. apply insert_row_spec in H as (-> & Hrows & _ & E1 & E2).
  unfold store_wf. rewrite Hrows. split; [|split].
  - apply NoDup_map_snoc; [exact Hpair|apply existsb_same_pair_false, E2].
  - apply NoDup_map_snoc; [exact Hpk|apply existsb_has_pk_false, E1].
  - apply Forall_app. split; [exact Hsaved|]. constructor; [discriminate|constructor].
Qed.

Lemma prepare_attendance_pk e u a : att_pk (prepare_attendance e u a) = att_pk a.
Proof. reflexivity. Qed.

(** ** Properties *)

(** C15: every write of [Attendance.save] keeps the table well formed: no
    two records share an (event, user) pair, no two share a primary key,
    and every row has one. *)
Theorem save_attendance_wf st e u a st' a' :
  store_wf st -> save_attendance st e u a = Ok (st', a') -> store_wf st'.
Proof.
  unfold save_attendance, db_save. intros Hwf.
  destruct (att_pk (prepare_attendance e u a)) as [p|] eqn:Hp; [|apply insert_row_wf, Hwf].
  destruct (existsb (has_pk p) _) eqn:E1; [|apply insert_row_wf, Hwf].
  destruct (existsb (fun r => negb (has_pk p r) && _) (att_rows st)) eqn:E2; [intros ?; discriminate|]. intros [= <- _].
  destruct Hwf as (Hpair & Hpk & Hsaved). split; [|split]; cbn.
  - apply NoDup_map_replace; [exact Hpair|exact Hpk|].
    intros r Hr Hne Heq. assert (existsb (fun r => negb (has_pk p r) &&
      same_pair (prepare_attendance e u a) r) (att_rows st) = true) as Hc; [|congruence].
    apply existsb_exists. exists r. split; [exact Hr|].
    apply andb_true_iff. split; [apply negb_true_iff, bool_decide_eq_false_2, Hne|].
    apply same_pair_true. auto.
  - apply NoDup_map_replace; [exact Hpk|exact Hpk|]. intros r _ Hne. rewrite Hp. exact Hne.
  - apply Forall_map, List.Forall_forall. intros r Hr. case_bool_decide.
    + rewrite Hp. discriminate.
    + apply List.Forall_forall with (x := r) in Hsaved; assumption.
Qed.

(** C16: a new submission for an (event, user) pair that already has a
    record creates nothing: the write fails with the unique-constraint
    error (or the primary-key error when the sequence value is taken). *)
Theorem save_attendance_duplicate st e u a r :
  att_pk a = None -> In r (att_rows st) ->
  pair_of r = pair_of a ->
  exists err, save_attendance st e u a = Err err /\
    (existsb (has_pk (att_next_pk st)) (att_rows st) = false -> err = UniqueEventUser).
Proof.
  intros Hp Hr Hpair. unfold save_attendance, db_save. rewrite prepare_attendance_pk, Hp.
  unfold insert_row. destruct (existsb (has_pk _) _) eqn:E1; [eexists; split; [reflexivity|discriminate]|].
  assert (Hex : existsb (same_pair (set_att_pk (prepare_attendance e u a) (att_next_pk st)))
                        (att_rows st) = true).
  { apply existsb_exists. exists r. split; [exact Hr|]. apply same_pair_true.
    rewrite set_att_pk_pair. symmetry. exact Hpair. }
  rewrite Hex. eexists. split; [reflexivity|auto].
Qed.

(** C17: a saved record takes the event's campus when it had none, is
    flagged cross-campus exactly when the user's campus differs from the
    event's, and gets the UTC time of [marked_at] as arrival time when it
    had none; the other fields are the ones submitted. *)
Theorem save_attendance_fields st e u a st' a' :
  save_attendance st e u a = Ok (st', a') ->
  att_campus_id a' = (if py_truthy_opt (att_campus_id a) then att_campus_id a
                      else Some (event_campus_id e)) /\
  (cross_campus_attendance a' = true <-> user_campus_id u <> event_campus_id e) /\
  arrival_time a' = Some (match arrival_time a with Some t => t | None => time_of (marked_at a) end) /\
  pair_of a' = pair_of a /\ att_status a' = att_status a.
Proof.
  unfold save_attendance, db_save. rewrite prepare_attendance_pk.
  assert (Hfields : forall p,
    att_campus_id (set_att_pk (prepare_attendance e u a) p) =
      (if py_truthy_opt (att_campus_id a) then att_campus_id a else Some (event_campus_id e)) /\
    (cross_campus_attendance (set_att_pk (prepare_attendance e u a) p) = true <->
       user_campus_id u <> event_campus_id e) /\
    arrival_time (set_att_pk (prepare_attendance e u a) p) =
      Some (match arrival_time a with Some t => t | None => time_of (marked_at a) end) /\
    pair_of (set_att_pk (prepare_attendance e u a) p) = pair_of a /\
    att_status (set_att_pk (prepare_attendance e u a) p) = att_status a).
  { intros p. cbn. rewrite negb_true_iff, Z.eqb_neq.
    destruct (arrival_time a); repeat split; tauto. }
  destruct (att_pk a) as [p|].
  - destruct (existsb (has_pk p) _).
    + destruct existsb; [discriminate|]. intros [= _ <-].
      specialize (Hfields p). unfold set_att_pk in Hfields. cbn in *. exact Hfields.
    + intros H. apply insert_row_spec in H as (-> & _). apply Hfields.
  - intros H. apply insert_row_spec in H as (-> & _). apply Hfields.
Qed.

(** C18: [is_late] compares the UTC time of day of [marked_at] with the
    event's local start time.  In a zone east of UTC by [tz] seconds, a
    record marked [delta] seconds after a start at [start] (local), with
    [delta <= tz <= start] and the arrival on the same day, is not late. *)
Theorem is_late_utc_mismatch st e u a st' a' tz delta :
  arrival_time a = None ->
  marked_at a = make_aware tz (combine (event_date e) (start_time e + delta)) ->
  0 < delta <= tz -> tz <= start_time e -> start_time e + delta < seconds_per_day ->
  save_attendance st e u a = Ok (st', a') ->
  is_late e a' = false.
Proof.
  intros Harr Hm Hd Htz Hday Hsave.
  apply save_attendance_fields in Hsave as (_ & _ & Ha & _).
  unfold is_late. rewrite Ha, Harr, Hm. unfold time_of, make_aware, combine.
  replace (event_date e * seconds_per_day + (start_time e + delta) - tz)
    with ((start_time e + delta - tz) + event_date e * seconds_per_day) by lia.
  rewrite Z_mod_plus_full, Z.mod_small by (unfold seconds_per_day in *; lia).
  apply Z.ltb_ge. lia.
Qed.

End AttendanceStore.
