(* ===== verification/Submissions.v ===== *)
(** * Submissions: concurrent attendance submissions against one table

    A submission runs [Event.can_user_attend] against the attendance table
    and, when it is allowed, [Attendance.save]; the two steps of different
    submissions interleave (spec section 5: double submits from a flaky
    client).  The repository has no view that composes them (the attendance
    API is not routed), so the composition follows the spec's pipeline,
    gates 1-4, with the source's check and save as its steps.

    [Sys] is the shared table and the list of submissions with their phase;
    [step] is one step of one submission.  [sys_inv] holds in every
    reachable state: the table stays well formed, every created record is in
    the table with the pair of its submission, and two submissions never
    create records with the same primary key, hence never for the same
    (event, user) pair.  Section [DoubleSubmit] fixes submissions of one
    user for one event, eligible by spec 4.5 at the start, and shows that
    every complete run creates exactly one record (spec 8, idempotence):
    while nothing is created the table is unchanged, so every check passes
    and every save succeeds. *)

From stdpp Require Import relations.
From S2P Require Import Prelude Schema Events AttendanceStore.
Open Scope Z_scope.

Module Submissions.
Import Events AttendanceStore.

Record Submission := mkSubmission { sub_event : Event; sub_user : User; sub_att : Attendance }.

Inductive Outcome :=
| Refused (message : string)
| Created (record : Attendance)
| Crashed (error : IntegrityError).

Inductive Phase := Fresh | Checked | Finished (o : Outcome).

Record Sys := mkSys { sys_store : AttStore; sys_subs : list (Submission * Phase) }.

(** The phase a submission reaches after its eligibility check. *)
Definition check_phase (now : Z) (st : AttStore) (sb : Submission) : Phase :=
  let '(ok, message) := can_user_attend now (sub_event sb) (att_rows st) (sub_user sb) in
  if ok then Checked else Finished (Refused message).

Inductive step (now : Z) : Sys -> Sys -> Prop :=
| step_check s i sb :
    sys_subs s !! i = Some (sb, Fresh) ->
    step now s (mkSys (sys_store s) (<[i := (sb, check_phase now (sys_store s) sb)]> (sys_subs s)))
| step_save s i sb st' a' :
    sys_subs s !! i = Some (sb, Checked) ->
    save_attendance (sys_store s) (sub_event sb) (sub_user sb) (sub_att sb) = Ok (st', a') ->
    step now s (mkSys st' (<[i := (sb, Finished (Created a'))]> (sys_subs s)))
| step_crash s i sb err :
    sys_subs s !! i = Some (sb, Checked) ->
    save_attendance (sys_store s) (sub_event sb) (sub_user sb) (sub_att sb) = Err err ->
    step now s (mkSys (sys_store s) (<[i := (sb, Finished (Crashed err))]> (sys_subs s))).

(** ** The invariant *)

Definition created_in (subs : list (Submission * Phase)) (i : nat) (a : Attendance) : Prop :=
  exists sb, subs !! i = Some (sb, Finished (Created a)).

(** The primary-key sequence is ahead of every row's key (the table's
    rows were all inserted through the sequence). *)
Definition seq_fresh (st : AttStore) : Prop :=
  Forall (fun r => exists p, att_pk r = Some p /\ p < att_next_pk st) (att_rows st).

Definition sys_inv (s : Sys) : Prop :=
  store_wf (sys_store s) /\ seq_fresh (sys_store s) /\
  (forall i sb ph, sys_subs s !! i = Some (sb, ph) -> att_pk (sub_att sb) = None) /\
  (forall i a, created_in (sys_subs s) i a -> In a (att_rows (sys_store s))) /\
  (forall i j a b, i <> j -> created_in (sys_subs s) i a -> created_in (sys_subs s) j b ->
                   att_pk a <> att_pk b) /\
  (forall i sb a, sys_subs s !! i = Some (sb, Finished (Created a)) ->
                  pair_of a = pair_of (sub_att sb)).

(** A fresh start: a well-formed table and new submissions, none run yet. *)
Definition initial (s : Sys) : Prop :=
  store_wf (sys_store s) /\ seq_fresh (sys_store s) /\
  Forall (fun x => att_pk (sub_att (fst x)) = None /\ snd x = Fresh) (sys_subs s).

(** A submission that has finished, whatever its outcome. *)
Definition finished (ph : Phase) : bool := match ph with Finished _ => true | _ => false end.

(** ** Lemmas *)

Lemma created_in_insert subs i sb ph j a :
  created_in (<[i := (sb, ph)]> subs) j a ->
  (i = j /\ ph = Finished (Created a)) \/ (i <> j /\ created_in subs j a).
Proof.
  intros (sb' & H). apply list_lookup_insert_Some in H as [(-> & [= -> ->] & _)|(Hne & H)].
  - left. auto.
  - right. split; [exact Hne|exists sb'; exact H].
Qed.

(** A phase that records no creation leaves the created records as they were. *)
Lemma created_in_insert_other subs i sb ph j a :
  (forall r, ph <> Finished (Created r)) ->
  created_in (<[i := (sb, ph)]> subs) j a -> created_in subs j a.
Proof. intros Hph H. apply created_in_insert in H as [[_ Hc]|[_ H]]; [exfalso; eapply Hph; eauto|exact H]. Qed.

Lemma lookup_insert_same_sub (subs : list (Submission * Phase)) i sb sb0 ph ph0 j sb' ph' :
  subs !! i = Some (sb0, ph0) -> sb = sb0 ->
  <[i := (sb, ph)]> subs !! j = Some (sb', ph') -> exists ph'', subs !! j = Some (sb', ph'').
Proof.
  intros Hi -> H. apply list_lookup_insert_Some in H as [(-> & [= -> _] & _)|(_ & H)]; eauto.
Qed.

(** A submission without primary key is inserted under the sequence's
    next value, which no row has. *)
Lemma save_fresh st e u a st' a' :
  att_pk a = None -> save_attendance st e u a = Ok (st', a') ->
  att_rows st' = att_rows st ++ [a'] /\ att_pk a' = Some (att_next_pk st) /\
  ~ In (Some (att_next_pk st)) (map att_pk (att_rows st)) /\ pair_of a' = pair_of a.
Proof.
  intros Hp H. unfold save_attendance, db_save in H.
  rewrite prepare_attendance_pk, Hp in H. apply insert_row_spec in H as (-> & Hrows & _ & E1 & _).
  split; [exact Hrows|split; [reflexivity|split; [apply existsb_has_pk_false, E1|reflexivity]]].
Qed.

Lemma seq_fresh_save st e u a st' a' :
  att_pk a = None -> seq_fresh st -> save_attendance st e u a = Ok (st', a') -> seq_fresh st'.
Proof.
  intros Hp Hseq H. unfold save_attendance, db_save in H. rewrite prepare_attendance_pk, Hp in H.
  apply insert_row_spec in H as (-> & Hrows & Hnext & _ & _). unfold seq_fresh.
  rewrite Hrows, Hnext. apply Forall_app. split.
  - eapply Forall_impl; [exact Hseq|]. intros r (p & Hr & Hlt). exists p. split; [exact Hr|lia].
  - constructor; [|constructor]. eexists. split; [reflexivity|lia].
Qed.

Lemma seq_fresh_has_pk st : seq_fresh st -> existsb (has_pk (att_next_pk st)) (att_rows st) = false.
Proof.
  intros Hseq. apply not_true_iff_false. intros (r & Hr & Hk)%existsb_exists.
  apply bool_decide_eq_true in Hk. unfold seq_fresh in Hseq. rewrite List.Forall_forall in Hseq.
  destruct (Hseq r Hr) as (p & Hp & Hlt). rewrite Hk in Hp. injection Hp. lia.
Qed.

(** A submission whose pair already has a row fails on the unique
    constraint when the sequence is fresh. *)
Lemma save_pair_taken st e u a r :
  att_pk a = None -> seq_fresh st -> In r (att_rows st) -> pair_of r = pair_of a ->
  save_attendance st e u a = Err UniqueEventUser.
Proof.
  intros Hp Hseq Hr Hpair. unfold save_attendance, db_save, insert_row.
  rewrite prepare_attendance_pk, Hp, seq_fresh_has_pk by exact Hseq.
  replace (existsb _ _) with true; [reflexivity|]. symmetry. apply existsb_exists.
  exists r. split; [exact Hr|]. apply same_pair_true. rewrite Hpair. reflexivity.
Qed.

Lemma check_phase_not_created now st sb r : check_phase now st sb <> Finished (Created r).
Proof. unfold check_phase. destruct (can_user_attend _ _ _ _) as [[] m]; discriminate. Qed.

(** [sys_inv] is preserved by every step. *)
Lemma step_inv now s s' : sys_inv s -> step now s s' -> sys_inv s'.
Proof.
  intros (Hwf & Hseq & Hpk & Hin & Hdist & Hpair) Hstep.
  destruct Hstep as [s i sb Hi|s i sb st' a' Hi Hsave|s i sb err Hi Hsave];
    unfold sys_inv; cbn [sys_store sys_subs].
  - split; [exact Hwf|]. split; [exact Hseq|]. split; [|split].
    + intros j sb' ph' H. eapply lookup_insert_same_sub in H as (ph'' & H); eauto.
    + intros j a H. apply Hin with j. eapply created_in_insert_other; [|exact H].
      apply check_phase_not_created.
    + split.
      * intros j k a b Hjk Ha Hb. apply Hdist with j k; auto;
          eapply created_in_insert_other; eauto; apply check_phase_not_created.
      * intros j sb' a H. apply list_lookup_insert_Some in H as [(_ & [= _ Hc] & _)|(_ & H)];
          [exfalso; eapply check_phase_not_created; eauto|eauto].
  - pose proof (Hpk i sb Checked Hi) as Hnone.
    destruct (save_fresh _ _ _ _ _ _ Hnone Hsave) as (Hrows & Hpa & Hfresh & Hpa').
    split; [eapply save_attendance_wf; eauto|]. split; [eapply seq_fresh_save; eauto|].
    split; [|split].
    + intros j sb' ph' H. eapply lookup_insert_same_sub in H as (ph'' & H); eauto.
    + intros j a H. rewrite Hrows. apply in_or_app.
      apply created_in_insert in H as [[-> [= ->]]|[_ H]]; [right; left; reflexivity|left; eauto].
    + assert (Hold : forall j b, i <> j -> created_in (sys_subs s) j b -> att_pk b <> att_pk a').
      { intros j b _ Hb Heq. apply Hfresh. rewrite <- Hpa, <- Heq. apply in_map. eauto. }
      split.
      * intros j k a b Hjk Ha Hb.
        apply created_in_insert in Ha as [[<- [= <-]]|[Hij Ha]];
        apply created_in_insert in Hb as [[<- [= <-]]|[Hik Hb]].
        -- congruence.
        -- intros Heq. apply (Hold k b Hik Hb). auto.
        -- apply (Hold j a Hij Ha).
        -- apply Hdist with j k; auto.
      * intros j sb' a H. apply list_lookup_insert_Some in H as [(_ & [= <- <-] & _)|(_ & H)];
          [exact Hpa'|eauto].
  - split; [exact Hwf|]. split; [exact Hseq|]. split; [|split].
    + intros j sb' ph' H. eapply lookup_insert_same_sub in H as (ph'' & H); eauto.
    + intros j a H. apply Hin with j. eapply created_in_insert_other; [|exact H]. discriminate.
    + split.
      * intros j k a b Hjk Ha Hb. apply Hdist with j k; auto;
          eapply created_in_insert_other; eauto; discriminate.
      * intros j sb' a H. apply list_lookup_insert_Some in H as [(_ & Hc & _)|(_ & H)];
          [discriminate|eauto].
Qed.

Lemma initial_inv s : initial s -> sys_inv s.
Proof.
  intros (Hwf & Hseq & Hall). split; [exact Hwf|]. split; [exact Hseq|]. rewrite List.Forall_forall in Hall.
  assert (Hlook : forall i x, sys_subs s !! i = Some x ->
                  att_pk (sub_att (fst x)) = None /\ snd x = Fresh)
    by (intros i x H; apply Hall, list_elem_of_In, list_elem_of_lookup_2 with i; exact H).
  split; [|split; [|split]].
  - intros i sb ph H. apply (Hlook i _ H).
  - intros i a (sb & H). apply Hlook in H as [_ H]. discriminate.
  - intros i j a b _ (sb & H). apply Hlook in H as [_ H]. discriminate.
  - intros i sb a H. apply Hlook in H as [_ H]. discriminate.
Qed.

(** The steps with their target given up to conversion, for running
    concrete interleavings. *)
Lemma step_check_to now s s' i sb :
  sys_subs s !! i = Some (sb, Fresh) ->
  s' = mkSys (sys_store s) (<[i := (sb, check_phase now (sys_store s) sb)]> (sys_subs s)) ->
  step now s s'.
Proof. intros Hi ->. apply step_check, Hi. Qed.

Lemma step_save_to now s s' i sb st' a' :
  sys_subs s !! i = Some (sb, Checked) ->
  save_attendance (sys_store s) (sub_event sb) (sub_user sb) (sub_att sb) = Ok (st', a') ->
  s' = mkSys st' (<[i := (sb, Finished (Created a'))]> (sys_subs s)) -> step now s s'.
Proof. intros Hi Hs ->. eapply step_save; eauto. Qed.

Lemma step_crash_to now s s' i sb err :
  sys_subs s !! i = Some (sb, Checked) ->
  save_attendance (sys_store s) (sub_event sb) (sub_user sb) (sub_att sb) = Err err ->
  s' = mkSys (sys_store s) (<[i := (sb, Finished (Crashed err))]> (sys_subs s)) -> step now s s'.
Proof. intros Hi Hs ->. eapply step_crash; eauto. Qed.

Lemma rtc_inv now s0 s : sys_inv s0 -> rtc (step now) s0 s -> sys_inv s.
Proof. induction 2; eauto using step_inv. Qed.

(** Two distinct submissions' records differ in their (event, user) pair:
    they are distinct rows of a table with unique pairs. *)
Lemma inv_created_pairs_distinct s i j a b :
  sys_inv s -> i <> j ->
  created_in (sys_subs s) i a -> created_in (sys_subs s) j b -> pair_of a <> pair_of b.
Proof.
  intros ((Hpairs & _) & _ & _ & Hin & Hdist & _) Hij Ha Hb Hpair.
  apply (Hdist i j a b Hij Ha Hb). f_equal.
  eapply NoDup_map_key; [exact Hpairs|eapply Hin; eauto|eapply Hin; eauto|exact Hpair].
Qed.

(** A record created by a submission stays created. *)
Lemma step_created now s s' i a :
  step now s s' -> created_in (sys_subs s) i a -> created_in (sys_subs s') i a.
Proof.
  intros [t k sb Hk|t k sb st' a' Hk _|t k sb err Hk _] [sb0 Hi]; exists sb0; cbn [sys_subs];
    (rewrite list_lookup_insert_ne; [exact Hi|intros ->; congruence]).
Qed.

(** Steps only change phases: the submission at each index is the one it
    started with, and the number of submissions is kept. *)
Lemma rtc_subs now s0 s i sb ph :
  rtc (step now) s0 s -> sys_subs s !! i = Some (sb, ph) ->
  exists ph0, sys_subs s0 !! i = Some (sb, ph0).
Proof.
  intros Hrun. revert s Hrun i sb ph.
  apply (rtc_ind_r (fun s => forall i sb ph, sys_subs s !! i = Some (sb, ph) ->
                             exists ph0, sys_subs s0 !! i = Some (sb, ph0))); [eauto|].
  intros y z _ Hxy IH i sb ph H.
  destruct Hxy as [t k sb' Hk|t k sb' st' a' Hk _|t k sb' err Hk _]; cbn [sys_subs] in H;
    eapply lookup_insert_same_sub in H as (ph' & H); eauto.
Qed.

Lemma rtc_length now s0 s : rtc (step now) s0 s -> length (sys_subs s) = length (sys_subs s0).
Proof.
  induction 1 as [|x y z Hxy _ IH]; [reflexivity|rewrite IH].
  destruct Hxy; cbn [sys_subs]; apply length_insert.
Qed.

(** A save of a record without key, whose pair no row has, succeeds when
    the sequence is fresh. *)
Lemma save_free_pair st e u a :
  att_pk a = None -> seq_fresh st ->
  (forall r, In r (att_rows st) -> pair_of r <> pair_of a) ->
  exists st' a', save_attendance st e u a = Ok (st', a').
Proof.
  intros Hp Hseq Hfree. unfold save_attendance, db_save, insert_row.
  rewrite prepare_attendance_pk, Hp, seq_fresh_has_pk by exact Hseq.
  replace (existsb _ _) with false; [eauto|]. symmetry. apply not_true_iff_false.
  intros (r & Hr & Hsame)%existsb_exists. apply same_pair_true in Hsame.
  apply (Hfree r Hr). rewrite <- Hsame. reflexivity.
Qed.

(** ** Properties *)

(** C19: in every state reachable from a fresh start, the table is well
    formed (one record per (event, user) pair, distinct primary keys), the
    sequence is fresh, and every record a submission created is in the table
    under a primary key of its own. *)
Theorem reachable_inv now s0 s :
  initial s0 -> rtc (step now) s0 s -> sys_inv s.
Proof. intros H0. apply rtc_inv, initial_inv, H0. Qed.

(** C20: however the checks and saves of concurrent submissions
    interleave, two submissions never both create a record for the same
    (event, user) pair. *)
Theorem created_pairs_distinct now s0 s i j a b :
  initial s0 -> rtc (step now) s0 s -> i <> j ->
  created_in (sys_subs s) i a -> created_in (sys_subs s) j b -> pair_of a <> pair_of b.
Proof.
  intros H0 Hrun. apply inv_created_pairs_distinct, (rtc_inv _ _ _ (initial_inv _ H0) Hrun).
Qed.

(** ** A double submit *)

(** Submissions that all come from one user for one event (the record of
    each is for that event and that user), starting from a table where
    the user is eligible by spec 4.5's gates 1-4. *)
Section DoubleSubmit.

Variables (now : Z) (e : Event) (u : User) (s0 : Sys).
Hypothesis H0 : initial s0.
Hypothesis Hsame : forall i sb ph, sys_subs s0 !! i = Some (sb, ph) ->
  sub_event sb = e /\ sub_user sb = u /\
  att_event (sub_att sb) = event_pk e /\ att_user (sub_att sb) = user_pk u.
Hypothesis Helig : spec_check now e (att_rows (sys_store s0)) u = None.

(** Until a record is created, the table is the initial one and no
    submission has been refused or has failed. *)
Definition untouched (s : Sys) : Prop :=
  sys_store s = sys_store s0 /\ forall i sb ph, sys_subs s !! i = Some (sb, ph) -> finished ph = false.

Lemma double_submit_check s sb :
  sys_store s = sys_store s0 -> sub_event sb = e -> sub_user sb = u ->
  check_phase now (sys_store s) sb = Checked.
Proof.
  intros Hst He Hu. unfold check_phase. rewrite Hst, He, Hu, (spec_check_none_attend _ _ _ _ Helig).
  reflexivity.
Qed.

Lemma double_submit_free sb :
  att_event (sub_att sb) = event_pk e -> att_user (sub_att sb) = user_pk u ->
  forall r, In r (att_rows (sys_store s0)) -> pair_of r <> pair_of (sub_att sb).
Proof.
  intros Hev Hus r Hr Hpair. unfold pair_of in Hpair. rewrite Hev, Hus in Hpair. injection Hpair as Hre Hru.
  pose proof (spec_check_none_attend _ _ _ _ Helig) as Hok. unfold can_user_attend in Hok.
  replace (already_marked e (att_rows (sys_store s0)) u) with true in Hok;
    [revert Hok; repeat case_match; congruence|].
  symmetry. apply existsb_exists. exists r. split; [exact Hr|].
  apply andb_true_iff. split; [apply bool_decide_eq_true, Hre|apply Z.eqb_eq, Hru].
Qed.

Lemma double_submit_progress s :
  rtc (step now) s0 s -> untouched s \/ exists i a, created_in (sys_subs s) i a.
Proof.
  revert s. apply (rtc_ind_r (fun s => untouched s \/ exists i a, created_in (sys_subs s) i a)).
  { left. split; [reflexivity|]. destruct H0 as (_ & _ & Hall). rewrite List.Forall_forall in Hall.
    intros i sb ph H. apply list_elem_of_lookup_2, list_elem_of_In, Hall in H as [_ H].
    cbn in H. subst ph. reflexivity. }
  intros x y Hrun Hxy IH.
  destruct IH as [[Hst Hph]|(i & a & Hc)]; [|right; exists i, a; eapply step_created; eauto].
  pose proof (rtc_inv _ _ _ (initial_inv _ H0) Hrun) as (_ & _ & Hpk & _).
  destruct Hxy as [t k sb Hk|t k sb st' a' Hk _|t k sb err Hk Hsave].
  - left. split; [exact Hst|]. cbn [sys_subs sys_store].
    intros j sb' ph' H. apply list_lookup_insert_Some in H as [(<- & [= <- <-] & _)|(_ & H)];
      [|eapply Hph; eauto].
    destruct (rtc_subs _ _ _ _ _ _ Hrun Hk) as (ph0 & H0k). destruct (Hsame _ _ _ H0k) as (He & Hu & _).
    rewrite double_submit_check by assumption. reflexivity.
  - right. exists k, a'. exists sb. cbn [sys_subs]. apply list_lookup_insert_Some. left.
    split; [reflexivity|split; [reflexivity|eapply lookup_lt_Some, Hk]].
  - exfalso. destruct (rtc_subs _ _ _ _ _ _ Hrun Hk) as (ph0 & H0k).
    destruct (Hsame _ _ _ H0k) as (_ & _ & Hev & Hus).
    destruct (save_free_pair (sys_store t) (sub_event sb) (sub_user sb) (sub_att sb)) as (st' & a' & Hok).
    + eapply Hpk; eauto.
    + rewrite Hst. apply H0.
    + rewrite Hst. apply double_submit_free; assumption.
    + congruence.
Qed.

(** C21: spec 5 and 8, idempotence of a double submit: however the checks
    and saves of the submissions interleave, once all have finished
    exactly one of them has created a record (the others were refused or
    failed). *)
Theorem double_submit_exactly_one s :
  sys_subs s0 <> [] -> rtc (step now) s0 s ->
  (forall i sb ph, sys_subs s !! i = Some (sb, ph) -> finished ph = true) ->
  exists i a, created_in (sys_subs s) i a /\
    forall j b, created_in (sys_subs s) j b -> j = i /\ b = a.
Proof.
  intros Hne Hrun Hdone.
  destruct (double_submit_progress s Hrun) as [[_ Hph]|(i & a & Hc)].
  - exfalso. destruct (sys_subs s !! 0%nat) as [[sb ph]|] eqn:H.
    + specialize (Hph _ _ _ H). specialize (Hdone _ _ _ H). congruence.
    + apply lookup_ge_None in H. rewrite (rtc_length _ _ _ Hrun) in H.
      destruct (sys_subs s0); [contradiction|cbn in H; lia].
  - exists i, a. split; [exact Hc|]. intros j b Hb.
    destruct (decide (j = i)) as [->|Hji].
    + split; [reflexivity|]. destruct Hc as (sa & Ha), Hb as (sb & Hb). congruence.
    + exfalso. pose proof (rtc_inv _ _ _ (initial_inv _ H0) Hrun) as Hinv.
      apply (inv_created_pairs_distinct _ _ _ _ _ Hinv Hji Hb Hc).
      destruct Hinv as (_ & _ & _ & _ & _ & Hpair).
      destruct Hc as (sa & Ha), Hb as (sb & Hb).
      rewrite (Hpair _ _ _ Ha), (Hpair _ _ _ Hb).
      destruct (rtc_subs _ _ _ _ _ _ Hrun Ha) as (? & Ha0), (rtc_subs _ _ _ _ _ _ Hrun Hb) as (? & Hb0).
      destruct (Hsame _ _ _ Ha0) as (_ & _ & Hea & Hua), (Hsame _ _ _ Hb0) as (_ & _ & Heb & Hub).
      unfold pair_of. rewrite Hea, Hua, Heb, Hub. reflexivity.
Qed.

End DoubleSubmit.

End Submissions.
