(* ===== verification/Scenarios.v ===== *)
(** * Scenarios: the properties at concrete inputs

    Seed-like data of an SNSU campus in Manila time (UTC+8, [TIME_ZONE]
    offset 28800 s): an orientation event on day 20000 from 09:00 to 12:00
    local time, the demo student of the seeding command and a second
    student, and their attendance submissions.  Each property with a
    hypothesis is applied here at these inputs, the hypotheses discharged
    by evaluation; the Submissions scenarios run the interleavings the
    spec's double-submit case describes. *)

From stdpp Require Import relations.
From S2P Require Import Prelude Schema Setup Events AttendanceStore Submissions.
Open Scope Z_scope.

Module Scenarios.
Import Setup Events AttendanceStore Submissions.

(** ** Data *)

Definition manila : Z := 28800.
Definition day : Z := 20000.

Definition orientation : Event :=
  mkEvent "evt-orientation" 1 2 "Freshmen Orientation" academic day 32400 43200 "Gymnasium"
    None false [] (Some 50) false None "" None None published true false false false 0.

(** The event as [Event.save] stores it: window and QR payload set. *)
Definition orientation_saved : Event := snd (save_event manila [] orientation).

(** A single-seat multi-campus event open to campuses 1 and 2. *)
Definition workshop : Event :=
  mkEvent "evt-workshop" 1 2 "Research Workshop" workshop day 50400 57600 "Hall B"
    None true [1; 2] (Some 0) false None "" (Some 1727850600) (Some 1727854200)
    published true false false false 0.

Definition juan : User := new_user 3 1 demo_student.
Definition ana : User :=
  mkUser 4 "ana" "Ana" "" "Reyes" 1 "2024-000002" "College of Arts and Sciences" student
    true false false [].
(** A student of the Del Carmen campus (id 2). *)
Definition pedro : User :=
  mkUser 5 "pedro" "Pedro" "" "Lim" 2 "2024-000003" "College of Teacher Education" student
    true false false [].

(** 09:00 local on [day], as an aware instant. *)
Definition class_start : Z := make_aware manila (combine day 32400).

Definition submission_of (e : Event) (u : User) (at_ : Z) : Attendance :=
  mkAttendance None None (event_pk e) (user_pk u) present qr_code_method false None None None
    at_ None None false None "" None "" None.

Definition juan_sub : Attendance := submission_of orientation_saved juan class_start.
Definition ana_sub : Attendance := submission_of orientation_saved ana class_start.

(** Juan, ten minutes after the start. *)
Definition juan_late : Attendance :=
  submission_of orientation_saved juan (make_aware manila (combine day (32400 + 600))).

Definition empty_store : AttStore := mkAttStore [] 1.

Definition juan_row : Attendance := set_att_pk (prepare_attendance orientation_saved juan juan_sub) 1.
Definition one_row : AttStore := mkAttStore [juan_row] 2.

Definition ana_row : Attendance := set_att_pk (prepare_attendance orientation_saved ana ana_sub) 2.
Definition juan_late_row : Attendance :=
  set_att_pk (prepare_attendance orientation_saved juan juan_late) 1.
Definition one_row_late : AttStore := mkAttStore [juan_late_row] 2.

(** ** Interleavings *)

Definition sb_juan : Submission := mkSubmission orientation_saved juan juan_sub.
Definition sb_ana : Submission := mkSubmission orientation_saved ana ana_sub.

(** A double submit by Juan: both checks pass, then the first save. *)
Definition dbl0 : Sys := mkSys empty_store [(sb_juan, Fresh); (sb_juan, Fresh)].
Definition dbl1 : Sys := mkSys empty_store [(sb_juan, Checked); (sb_juan, Fresh)].
Definition dbl2 : Sys := mkSys empty_store [(sb_juan, Checked); (sb_juan, Checked)].
Definition dbl3 : Sys := mkSys one_row [(sb_juan, Finished (Created juan_row)); (sb_juan, Checked)].
Definition dbl4 : Sys :=
  mkSys one_row [(sb_juan, Finished (Created juan_row)); (sb_juan, Finished (Crashed UniqueEventUser))].

(** Juan and Ana check in, interleaved. *)
Definition two0 : Sys := mkSys empty_store [(sb_juan, Fresh); (sb_ana, Fresh)].
Definition two1 : Sys := mkSys empty_store [(sb_juan, Checked); (sb_ana, Fresh)].
Definition two2 : Sys := mkSys empty_store [(sb_juan, Checked); (sb_ana, Checked)].
Definition two3 : Sys := mkSys one_row [(sb_juan, Finished (Created juan_row)); (sb_ana, Checked)].
Definition two4 : Sys :=
  mkSys (mkAttStore [juan_row; ana_row] 3)
    [(sb_juan, Finished (Created juan_row)); (sb_ana, Finished (Created ana_row))].

(** ** Facts about the data *)

Lemma store_wf_empty : store_wf empty_store.
Proof. split; [|split]; constructor. Qed.

Lemma store_wf_one_row : store_wf one_row.
Proof. split; [|split]; repeat constructor; [intros []..|discriminate]. Qed.

Lemma initial_dbl0 : initial dbl0.
Proof. split; [exact store_wf_empty|split; [constructor|repeat constructor]]. Qed.

Lemma initial_two0 : initial two0.
Proof. split; [exact store_wf_empty|split; [constructor|repeat constructor]]. Qed.

(** The double submit: check, check, save. *)
Lemma run_dbl : rtc (step class_start) dbl0 dbl3.
Proof.
  apply rtc_l with dbl1; [apply (step_check_to _ _ _ 0 sb_juan); vm_compute; reflexivity|].
  apply rtc_l with dbl2; [apply (step_check_to _ _ _ 1 sb_juan); vm_compute; reflexivity|].
  apply rtc_once. apply (step_save_to _ _ _ 0 sb_juan one_row juan_row); vm_compute; reflexivity.
Qed.

(** Juan and Ana: both checks, then both saves. *)
Lemma run_two : rtc (step class_start) two0 two4.
Proof.
  apply rtc_l with two1; [apply (step_check_to _ _ _ 0 sb_juan); vm_compute; reflexivity|].
  apply rtc_l with two2; [apply (step_check_to _ _ _ 1 sb_ana); vm_compute; reflexivity|].
  apply rtc_l with two3;
    [apply (step_save_to _ _ _ 0 sb_juan one_row juan_row); vm_compute; reflexivity|].
  apply rtc_once.
  apply (step_save_to _ _ _ 1 sb_ana (mkAttStore [juan_row; ana_row] 3) ana_row); vm_compute; reflexivity.
Qed.

(** ** Events *)

Lemma save_event_window_witness :
  attendance_window_start orientation = None /\
  attendance_window_start (snd (save_event manila [] orientation)) =
    Some (make_aware manila (combine day 32400) - 1800) /\
  attendance_window_end (snd (save_event manila [] orientation)) =
    Some (make_aware manila (combine day 32400) + 1800).
Proof. split; [reflexivity|apply (save_event_window manila [] orientation); reflexivity]. Defined.

Lemma save_event_qr_witness :
  event_pk orientation <> ""%string /\ qr_code orientation = None /\
  qr_code_data (snd (save_event manila [] orientation)) = qr_payload "evt-orientation".
Proof.
  assert (H : event_pk orientation <> ""%string) by discriminate.
  split; [exact H|split; [reflexivity|]].
  apply (save_event_qr manila [] [] orientation H eq_refl).
Defined.

Lemma can_user_attend_spec_witness :
  max_participants orientation_saved <> Some 0 /\
  can_user_attend class_start orientation_saved [juan_row] juan =
    (false, eligibility_message AlreadyMarked).
Proof.
  assert (H : max_participants orientation_saved <> Some 0) by (vm_compute; congruence).
  split; [exact H|]. rewrite (can_user_attend_spec _ _ _ _ H). vm_compute. reflexivity.
Defined.

Lemma can_user_attend_other_campus_witness :
  is_multi_campus orientation_saved = false /\ user_campus_id pedro <> event_campus_id orientation_saved /\
  can_user_attend class_start orientation_saved [] pedro = (false, msg_campus).
Proof.
  assert (H : user_campus_id pedro <> event_campus_id orientation_saved) by (vm_compute; congruence).
  split; [reflexivity|split; [exact H|apply can_user_attend_other_campus; [reflexivity|exact H]]].
Defined.

Lemma capacity_zero_unlimited_witness :
  max_participants workshop = Some 0 /\ at_capacity workshop [] = false.
Proof. split; [reflexivity|apply (capacity_zero_unlimited workshop []); reflexivity]. Defined.

(** ** Attendance.save *)

Lemma save_attendance_wf_witness :
  save_attendance one_row orientation_saved ana ana_sub = Ok (mkAttStore [juan_row; ana_row] 3, ana_row) /\
  store_wf (mkAttStore [juan_row; ana_row] 3).
Proof.
  assert (H : save_attendance one_row orientation_saved ana ana_sub =
              Ok (mkAttStore [juan_row; ana_row] 3, ana_row)) by (vm_compute; reflexivity).
  split; [exact H|apply (save_attendance_wf _ _ _ _ _ _ store_wf_one_row H)].
Defined.

Lemma save_attendance_duplicate_witness :
  exists err, save_attendance one_row orientation_saved juan juan_sub = Err err /\ err = UniqueEventUser.
Proof.
  destruct (save_attendance_duplicate one_row orientation_saved juan juan_sub juan_row)
    as (err & He & Hu); [reflexivity|left; reflexivity|reflexivity|].
  exists err. split; [exact He|apply Hu; vm_compute; reflexivity].
Defined.

Lemma save_attendance_fields_witness :
  save_attendance empty_store orientation_saved juan juan_sub = Ok (one_row, juan_row) /\
  att_campus_id juan_row = Some 1 /\ arrival_time juan_row = Some (time_of class_start).
Proof.
  assert (H : save_attendance empty_store orientation_saved juan juan_sub = Ok (one_row, juan_row))
    by (vm_compute; reflexivity).
  destruct (save_attendance_fields _ _ _ _ _ _ H) as (Hc & _ & Ha & _).
  split; [exact H|split; [exact Hc|exact Ha]].
Defined.

(** Juan, ten minutes late in Manila, is recorded as not late. *)
Lemma is_late_utc_mismatch_witness :
  save_attendance empty_store orientation_saved juan juan_late = Ok (one_row_late, juan_late_row) /\
  is_late orientation_saved juan_late_row = false.
Proof.
  assert (H : save_attendance empty_store orientation_saved juan juan_late =
              Ok (one_row_late, juan_late_row)) by (vm_compute; reflexivity).
  split; [exact H|].
  apply (is_late_utc_mismatch empty_store orientation_saved juan juan_late one_row_late juan_late_row
           manila 600); [reflexivity|reflexivity|unfold manila; lia|vm_compute; congruence|vm_compute; reflexivity|exact H].
Defined.

(** ** Interleaved submissions *)

Lemma reachable_inv_witness : initial two0 /\ rtc (step class_start) two0 two4 /\ sys_inv two4.
Proof.
  split; [exact initial_two0|split; [exact run_two|]].
  apply (reachable_inv class_start two0 two4 initial_two0 run_two).
Defined.

Lemma created_pairs_distinct_witness :
  created_in (sys_subs two4) 0 juan_row /\ created_in (sys_subs two4) 1 ana_row /\
  pair_of juan_row <> pair_of ana_row.
Proof.
  assert (Ha : created_in (sys_subs two4) 0 juan_row) by (exists sb_juan; reflexivity).
  assert (Hb : created_in (sys_subs two4) 1 ana_row) by (exists sb_ana; reflexivity).
  split; [exact Ha|split; [exact Hb|]].
  apply (created_pairs_distinct class_start two0 two4 0 1 juan_row ana_row initial_two0 run_two);
    [discriminate|exact Ha|exact Hb].
Defined.

(** Juan's double submit, run to the end: the second save fails on the
    unique constraint and exactly one record exists. *)
Lemma double_submit_exactly_one_witness :
  rtc (step class_start) dbl0 dbl4 /\
  exists i a, created_in (sys_subs dbl4) i a /\
    forall j b, created_in (sys_subs dbl4) j b -> j = i /\ b = a.
Proof.
  assert (Hrun : rtc (step class_start) dbl0 dbl4).
  { eapply rtc_r; [exact run_dbl|].
    apply (step_crash_to _ _ _ 1 sb_juan UniqueEventUser); vm_compute; reflexivity. }
  split; [exact Hrun|].
  apply (double_submit_exactly_one class_start orientation_saved juan dbl0 initial_dbl0).
  - intros [|[|i]] sb ph H; cbn in H; try discriminate; injection H as <- _; vm_compute; auto.
  - vm_compute. reflexivity.
  - discriminate.
  - exact Hrun.
  - intros [|[|i]] sb ph H; cbn in H; try discriminate; injection H as _ <-; reflexivity.
Defined.

End Scenarios.
